(** * webhook: hook table reload, request dispatch and command execution

    A shallow embedding of [webhook.go] (package main of the webhook
    server) and the properties of its reload, dispatch and execution paths.

    Go strings and byte slices are [string]s (sequences of bytes), Go maps
    are stdpp [gmap]s, a nil map or nil pointer is [None].  The collaborators
    that live outside [webhook.go] (the [hook] package's loader, rule
    evaluator, argument extraction and JSON-parameter pass, [encoding/json],
    [net/url], the executable search path) are the fields of the class
    [Collaborators]. *)

From Stdlib Require Import ZArith Ascii String List Lia.
From stdpp Require Import base option gmap strings list fin_maps.

Local Open Scope string_scope.
Local Open Scope list_scope.

(** ** Values *)

(** The dynamic values ([interface{}]) that end up in the request maps:
    strings put there by [valuesToMap], and what the JSON decoder produces
    (numbers stay textual because the decoder runs with [UseNumber]). *)
#[warnings="-register-all"]
Inductive iface : Type :=
| IString (s : string)
| INumber (n : string)
| IBool (b : bool)
| INil
| ISlice (l : list iface)
| IMap (m : list (string * iface)).

(** [map[string][]string]: [http.Header] and [url.Values]. *)
Abbreviation Values := (gmap string (list string)).

(** [map[string]interface{}] once allocated. *)
Abbreviation StrMap := (gmap string iface).

(** ** valuesToMap (webhook.go, lines 271-282) *)

(** One iteration of the [range] loop: [ret[key] = value[0]] under the
    guard [len(value) > 0]. *)
Definition valuesToMap_body (key : string) (value : list string)
    (ret : StrMap) : StrMap :=
  if bool_decide (0 < length value)
  then <[key := IString (nth 0 value "")]> ret
  else ret.

(** The loop ranges over the entries of [values] in the map's own order,
    starting from the empty map that [make] returns. *)
Definition valuesToMap (values : Values) : StrMap :=
  map_fold valuesToMap_body ∅ values.

(** ** fmt.Fprintf with a format and no operands

    [hookHandler] writes both of its response bodies with
    [fmt.Fprintf(w, format)], passing no operand.  This module follows
    [doPrintf] of Go's [fmt/print.go] for an empty operand list: text is
    copied up to each ['%'], and the directive after it can only produce
    ["%"], a [NOVERB], [BADWIDTH], [BADPREC], [BADINDEX] or [MISSING]
    marker, since no operand is there to be formatted. *)
Module fmt.

Local Open Scope string_scope.

Definition percentBangString : string := "%!".
Definition missingString : string := "(MISSING)".
Definition badIndexString : string := "(BADINDEX)".
Definition noVerbString : string := "%!(NOVERB)".
Definition badWidthString : string := "%!(BADWIDTH)".
Definition badPrecString : string := "%!(BADPREC)".

(** The replacement character U+FFFD as [writeRune] encodes it. *)
Definition runeError : string :=
  String (ascii_of_N 0xEF) (String (ascii_of_N 0xBF) (String (ascii_of_N 0xBD) "")).

Definition byte (c : ascii) : Z := Z.of_N (N_of_ascii c).

Definition inRange (lo hi : Z) (c : ascii) : bool :=
  ((lo <=? byte c) && (byte c <=? hi))%Z.

Fixpoint skip (n : nat) (s : string) : string :=
  match n, s with
  | S n', String _ s' => skip n' s'
  | _, _ => s
  end.

(** [tooLarge]: the bound on widths, precisions and argument indexes. *)
Definition tooLarge (x : Z) : bool := ((1000000 <? x) || (x <? -1000000))%Z.

(** [parsenum(s, start, end)] on the text [s[start:end]]: the number, whether
    a digit was seen, and the text from [newi] on.  On overflow [newi] is
    [end], so nothing is left. *)
Fixpoint parsenum_from (num : Z) (isnum : bool) (s : string)
    : Z * bool * string :=
  match s with
  | String c s' =>
      if inRange 48 57 c then
        if tooLarge num then (0%Z, false, "")
        else parsenum_from (num * 10 + (byte c - 48))%Z true s'
      else (num, isnum, s)
  | "" => (num, isnum, s)
  end.

Definition parsenum (s : string) : Z * bool * string :=
  parsenum_from 0 false s.

(** Index of the first [']'] of [s], counted from [i]. *)
Fixpoint closing (i : nat) (s : string) : option nat :=
  match s with
  | "" => None
  | String c s' => if (c =? "]")%char then Some i else closing (S i) s'
  end.

(** [parseArgNumber(format)], [format] starting at the ['[']: the index,
    the number of bytes to step over, and whether the index is well
    formed. *)
Definition parseArgNumber (format : string) : Z * nat * bool :=
  if (String.length format <? 3)%nat then (0%Z, 1%nat, false)
  else
    match closing 1 (skip 1 format) with
    | Some i =>
        let '(width, ok, rest) := parsenum (substring 1 (i - 1) format) in
        if negb ok || negb (String.eqb rest "")
        then (0%Z, S i, false)
        else ((width - 1)%Z, S i, true)
    | None => (0%Z, 1%nat, false)
    end.

(** [argNumber]: an explicit argument index [[n]] at the head of [format].
    The operand number cannot change, no index being below [numArgs]
    when that is 0; what is returned is the text after the index, [found],
    and [goodArgNum]. *)
Definition argNumber (numArgs : Z) (goodArgNum : bool) (format : string)
    : string * bool * bool :=
  match format with
  | String c _ =>
      if (c =? "[")%char then
        let '(index, wid, ok) := parseArgNumber format in
        if ok && (0 <=? index)%Z && (index <? numArgs)%Z
        then (skip wid format, true, goodArgNum)
        else (skip wid format, ok, false)
      else (format, false, goodArgNum)
  | "" => (format, false, goodArgNum)
  end.

(** The flag loop: ['#'], ['0'], ['+'], ['-'] and [' '] are stepped over. *)
Fixpoint flags (s : string) : string :=
  match s with
  | String c s' =>
      if (c =? "#")%char || (c =? "0")%char || (c =? "+")%char
         || (c =? "-")%char || (c =? " ")%char
      then flags s'
      else s
  | "" => s
  end.

(** [first] and [acceptRanges] of [unicode/utf8]: for a lead byte, the
    length of the sequence and the range of its second byte. *)
Definition first (b : Z) : option (nat * Z * Z) :=
  (if b <? 0xC2 then None
   else if b <=? 0xDF then Some (2%nat, 0x80, 0xBF)
   else if b =? 0xE0 then Some (3%nat, 0xA0, 0xBF)
   else if b <=? 0xEC then Some (3%nat, 0x80, 0xBF)
   else if b =? 0xED then Some (3%nat, 0x80, 0x9F)
   else if b <=? 0xEF then Some (3%nat, 0x80, 0xBF)
   else if b =? 0xF0 then Some (4%nat, 0x90, 0xBF)
   else if b <=? 0xF3 then Some (4%nat, 0x80, 0xBF)
   else if b =? 0xF4 then Some (4%nat, 0x80, 0x8F)
   else None)%Z.

(** The verb at the head of [s]: the bytes [writeRune] writes for it and
    its size.  A byte below 0x80 is its own rune; otherwise
    [utf8.DecodeRuneInString] decides, and an ill-formed sequence is the
    replacement character of size 1. *)
Definition decodeVerb (s : string) : string * nat :=
  match s with
  | "" => (runeError, 0%nat)
  | String s0 t0 =>
      if (byte s0 <? 0x80)%Z then (String s0 "", 1%nat)
      else
        match first (byte s0) with
        | None => (runeError, 1%nat)
        | Some (sz, lo, hi) =>
            if (String.length s <? sz)%nat then (runeError, 1%nat)
            else
              match t0 with
              | "" => (runeError, 1%nat)
              | String s1 t1 =>
                  if negb (inRange lo hi s1) then (runeError, 1%nat)
                  else if (sz <=? 2)%nat
                  then (String s0 (String s1 ""), 2%nat)
                  else
                    match t1 with
                    | "" => (runeError, 1%nat)
                    | String s2 t2 =>
                        if negb (inRange 0x80 0xBF s2) then (runeError, 1%nat)
                        else if (sz <=? 3)%nat
                        then (String s0 (String s1 (String s2 "")), 3%nat)
                        else
                          match t2 with
                          | "" => (runeError, 1%nat)
                          | String s3 _ =>
                              if negb (inRange 0x80 0xBF s3)
                              then (runeError, 1%nat)
                              else (String s0 (String s1 (String s2 (String s3 ""))),
                                    4%nat)
                          end
                    end
              end
        end
  end.

(** One directive, [s] being the text after its ['%']: what is written, and
    the text after the directive.  [numArgs] is [len(a)], here always 0. *)
Definition directive (numArgs : Z) (s : string) : string * string :=
  let s := flags s in
  (* explicit argument index *)
  let '(s, afterIndex, goodArgNum) := argNumber numArgs true s in
  (* width *)
  let '(out1, s, afterIndex, goodArgNum) :=
    match s with
    | String "*" s' => (badWidthString, s', false, goodArgNum)
    | _ =>
        let '(_, widPresent, s') := parsenum s in
        ("", s', afterIndex,
         if afterIndex && widPresent then false else goodArgNum)
    end in
  (* precision: read only when a byte follows the dot ([i+1 < end]) *)
  let '(out2, s, afterIndex, goodArgNum) :=
    match s with
    | String "." (String _ _ as s') =>
        let goodArgNum := if afterIndex then false else goodArgNum in
        let '(s', afterIndex, goodArgNum) := argNumber numArgs goodArgNum s' in
        match s' with
        | String "*" s'' => (badPrecString, s'', false, goodArgNum)
        | _ =>
            let '(_, _, s'') := parsenum s' in
            ("", s'', afterIndex, goodArgNum)
        end
    | _ => ("", s, afterIndex, goodArgNum)
    end in
  let '(s, afterIndex, goodArgNum) :=
    if afterIndex then (s, afterIndex, goodArgNum)
    else argNumber numArgs goodArgNum s in
  match s with
  | "" => (out1 ++ out2 ++ noVerbString, "")
  | _ =>
      let '(verb, size) := decodeVerb s in
      let s := skip size s in
      if String.eqb verb "%" then (out1 ++ out2 ++ "%", s)
      else if negb goodArgNum
      then (out1 ++ out2 ++ percentBangString ++ verb ++ badIndexString, s)
      else (out1 ++ out2 ++ percentBangString ++ verb ++ missingString, s)
  end.

(** The format loop.  [pending] counts the bytes of the current directive
    that are still to be stepped over (the loop's [i] is ahead of the byte
    at hand by that much). *)
Fixpoint doPrintf (pending : nat) (format : string) : string :=
  match format with
  | "" => ""
  | String c rest =>
      match pending with
      | S n => doPrintf n rest
      | O =>
          if (c =? "%")%char then
            let '(out, rest') := directive 0 rest in
            out ++ doPrintf (String.length rest - String.length rest') rest
          else String c (doPrintf 0 rest)
      end
  end.

(** [fmt.Sprintf(format)]: the bytes that [fmt.Fprintf(w, format)] hands
    to [w.Write]. *)
Definition Sprintf (format : string) : string := doPrintf 0 format.

(** No ['%'] in [s]. *)
Fixpoint noPercent (s : string) : bool :=
  match s with
  | "" => true
  | String c s' => negb (c =? "%")%char && noPercent s'
  end.

End fmt.

(** ** Logging

    What [log.Printf] and [log.Println] are called with; the text they print
    is not computed.  An [error] is the text it carries. *)
Definition Error : Type := string.

Inductive LogArg : Type :=
| AString (s : string)
| AStrings (l : list string)
| AInt (n : Z)
| AError (e : Error).

Inductive LogEntry : Type :=
| Printf (format : string) (args : list LogArg)
| Println (args : list LogArg).

(** ** net/http: the response writer and header access *)

(** [wroteHeader] is the status given to the first [WriteHeader]; [written]
    is the body so far. *)
Record ResponseWriter : Type :=
  { wroteHeader : option Z;
    written : string }.

Definition newResponseWriter : ResponseWriter :=
  {| wroteHeader := None; written := "" |}.

(** [w.WriteHeader(code)]: only the first call sets the status. *)
Definition WriteHeader (code : Z) (w : ResponseWriter) : ResponseWriter :=
  match wroteHeader w with
  | None => {| wroteHeader := Some code; written := written w |}
  | Some _ => w
  end.

Definition StatusOK : Z := 200.
Definition StatusNotFound : Z := 404.

(** [w.Write(data)]: a body written before any [WriteHeader] goes out under
    [StatusOK]. *)
Definition Write (data : string) (w : ResponseWriter) : ResponseWriter :=
  let w := WriteHeader StatusOK w in
  {| wroteHeader := wroteHeader w; written := (written w ++ data)%string |}.

(** [fmt.Fprintf(w, format)], no operand. *)
Definition Fprintf (w : ResponseWriter) (format : string) : ResponseWriter :=
  Write (fmt.Sprintf format) w.

(** The status the client receives: the one written, [StatusOK] when the
    handler returned without writing any. *)
Definition status (w : ResponseWriter) : Z := default StatusOK (wroteHeader w).

(** [h.Get(key)] for a key in canonical form: the first value, or [""]. *)
Definition Header_Get (h : Values) (key : string) : string :=
  match h !! key with
  | Some (v :: _) => v
  | _ => ""
  end.

(** [strings.HasPrefix(s, prefix)]. *)
Definition HasPrefix (s prefix : string) : bool := String.prefix prefix s.

(** ** os/exec *)

(** The fields of [exec.Cmd] that the program sets or that [Command] sets
    for it. *)
Record Cmd : Type :=
  { Path : string;
    Args : list string;
    Dir : string;
    lookPathErr : option Error }.

(** What the operating system is asked to start. *)
Record Process : Type :=
  { image : string;
    arguments : list string;
    directory : string }.

(** [c.argv()]: [Args] holds the whole argument vector, the command name at
    position 0 included; an empty [Args] stands for the vector [{Path}]. *)
Definition argv (c : Cmd) : list string :=
  if bool_decide (0 < length (Args c)) then Args c else [Path c].

(** [c.Start()], as far as the request to the system goes: nothing is
    started when the search for the executable failed. *)
Definition Start (c : Cmd) : option Process :=
  match lookPathErr c with
  | Some _ => None
  | None => Some {| image := Path c; arguments := argv c; directory := Dir c |}
  end.

(** ** fsnotify and signals *)

(** [fsnotify.Op] bits. *)
Definition fsnotify_Create : Z := 1.
Definition fsnotify_Write : Z := 2.
Definition fsnotify_Remove : Z := 4.
Definition fsnotify_Rename : Z := 8.
Definition fsnotify_Chmod : Z := 16.

Record Event : Type :=
  { Name : string;
    Op : Z }.

(** [syscall.Signal] numbers (linux). *)
Definition Signal : Type := Z.
Definition SIGUSR1 : Signal := 10%Z.

(** ** The hook package, as [webhook.go] sees it *)

(** [hook.Hook], with the fields [webhook.go] reads and the two lists the
    [hook] package consumes.  [Rules] are the trigger rules and [Argument]
    the argument descriptors, both owned by the package. *)
Record Hook {Rules Argument : Type} : Type :=
  { ID : string;
    ExecuteCommand : string;
    CommandWorkingDirectory : string;
    ResponseMessage : string;
    PassArgumentsToCommand : list Argument;
    JSONStringParameters : list Argument;
    TriggerRule : option Rules }.

Arguments Hook : clear implicits.

(** [hook.Hooks]: a slice of hooks. *)
Definition Hooks (Rules Argument : Type) : Type := list (Hook Rules Argument).

(** Modelled from the spec: [Hooks.Match] belongs to the [hook] package and
    is not part of [webhook.go]; the hook table is an ordered sequence with
    lookup by [id], first match wins. *)
Fixpoint Match {Rules Argument : Type} (h : Hooks Rules Argument)
    (id : string) : option (Hook Rules Argument) :=
  match h with
  | [] => None
  | hook :: rest => if String.eqb (ID hook) id then Some hook else Match rest id
  end.

(** What the program calls and does not define: the rest of the [hook]
    package, the decoders of the standard library, the search for
    executables, the processes it starts, and its [-hooks] flag.  [FS] is
    the state of the file system. *)
Class Collaborators (Rules Argument FS : Type) : Type :=
  { (** [h.LoadFromFile(path)]: the receiver after the call and the error. *)
    LoadFromFile :
      FS → string → Hooks Rules Argument → Hooks Rules Argument * option Error;
    (** [rule.Evaluate(headers, query, payload, body)]. *)
    Evaluate : Rules → StrMap → StrMap → option StrMap → string → bool;
    (** [hook.ExtractCommandArguments(headers, query, payload)]. *)
    ExtractCommandArguments :
      Hook Rules Argument → StrMap → StrMap → option StrMap → list string;
    (** [hook.ParseJSONParameters(&headers, &query, &payload)]: the three
        maps after the call. *)
    ParseJSONParameters :
      Hook Rules Argument →
      StrMap * StrMap * option StrMap → StrMap * StrMap * option StrMap;
    (** [json.NewDecoder(...).Decode(&payload)] on a nil [payload]: the map
        after the call and the error. *)
    json_Decode : string → option StrMap * option Error;
    (** [url.ParseQuery(query)]. *)
    ParseQuery : string → Values * option Error;
    (** [filepath.Base] and [exec.LookPath]. *)
    filepath_Base : string → string;
    LookPath : string → string * option Error;
    (** What a started process, once it ends, has printed, how it ended (the
        result of [Wait] as [Output] returns it), and the file system it
        leaves behind. *)
    run : Process → FS → string * option Error * FS;
    (** The [-hooks] flag. *)
    hooksFilePath : string }.

(** ** Requests and process state *)

(** What [hookHandler] reads of a request: the route variable [id], the
    headers, the raw query of the URL, and what [ioutil.ReadAll(r.Body)]
    returns. *)
Record Request : Type :=
  { Vars_id : string;
    Header : Values;
    RawQuery : string;
    ReadAll_Body : string * option Error }.

(** A call [go handleHook(hook, &headers, &query, &payload, &body)]. *)
Record Task {Rules Argument : Type} : Type :=
  { t_hook : Hook Rules Argument;
    t_headers : StrMap;
    t_query : StrMap;
    t_payload : option StrMap;
    t_body : string }.

Arguments Task : clear implicits.

(** The global [hooks], the file system, and the traces of what the
    program did: log calls, goroutines started, commands handed to
    [Output]. *)
Record Server {Rules Argument FS : Type} : Type :=
  { hooks : Hooks Rules Argument;
    files : FS;
    logged : list LogEntry;
    started : list (Task Rules Argument);
    executed : list Cmd }.

Arguments Server : clear implicits.

(** ** A concrete deployment

    One instance of the collaborators, small enough to compute with: rules
    that are constants, argument descriptors that name a query parameter, a
    file system that gives a path its parsed table or nothing, and the
    library functions on the inputs used in the examples at the end. *)
Module Scenario.

Definition Rules : Type := bool.
Definition Argument : Type := string.
Definition FS : Type := string → option (list (Hook Rules Argument)).

Definition LoadFromFile (fs : FS) (path : string)
    (h : Hooks Rules Argument) : Hooks Rules Argument * option Error :=
  match fs path with
  | Some table => (table, None)
  | None => (h, Some ("open " ++ path ++ ": no such file or directory")%string)
  end.

Definition Evaluate (rule : Rules) (_ _ : StrMap) (_ : option StrMap)
    (_ : string) : bool := rule.

Definition queryValue (query : StrMap) (name : Argument) : string :=
  match query !! name with
  | Some (IString v) => v
  | _ => ""
  end.

(** The argument vector with the command first, as the [hook] package
    builds it. *)
Definition ExtractCommandArguments (hook : Hook Rules Argument)
    (_ query : StrMap) (_ : option StrMap) : list string :=
  ExecuteCommand hook :: map (queryValue query) (PassArgumentsToCommand hook).

(** The extracted values alone. *)
Definition ExtractValues (hook : Hook Rules Argument)
    (_ query : StrMap) (_ : option StrMap) : list string :=
  map (queryValue query) (PassArgumentsToCommand hook).

Definition ParseJSONParameters (_ : Hook Rules Argument)
    (maps : StrMap * StrMap * option StrMap) := maps.

Definition json_Decode (body : string) : option StrMap * option Error :=
  if String.eqb body "{}" then (Some ∅, None)
  else (None, Some "invalid character looking for beginning of value").


(** Queries without escapes: pairs are split at ['&'] and at the first
    ['='], values of a key are kept in order. *)
Fixpoint splitOn (sep : ascii) (s : string) : list string :=
  match s with
  | "" => [""]
  | String c s' =>
      if (c =? sep)%char then "" :: splitOn sep s'
      else match splitOn sep s' with
           | h :: t => String c h :: t
           | [] => [String c ""]
           end
  end.

Fixpoint cut (sep : ascii) (s : string) : string * string :=
  match s with
  | "" => ("", "")
  | String c s' =>
      if (c =? sep)%char then ("", s')
      else let '(k, v) := cut sep s' in (String c k, v)
  end.

Definition ParseQuery (query : string) : Values * option Error :=
  fold_left
    (λ (acc : Values * option Error) (part : string),
       let '(m, err) := acc in
       if String.eqb part "" then acc
       else if negb (fmt.noPercent part)
       then (m, Some ("invalid URL escape")%string)
       else let '(k, v) := cut "=" part in
            (<[k := default [] (m !! k) ++ [v]]> m, err))
    (splitOn "&" query) (∅, None).

Definition filepath_Base (name : string) : string :=
  List.last (splitOn "/" name) "".

Definition LookPath (name : string) : string * option Error :=
  if String.eqb name "echo" then ("/bin/echo", None)
  else ("", Some "executable file not found in $PATH").

Definition run (p : Process) (fs : FS) : string * option Error * FS :=
  (String.concat " " (tail (arguments p)), None, fs).

Definition hooksFilePath : string := "hooks.json".

(** The hook of the end-to-end scenario, and one whose response message
    holds a percent sign. *)
Definition build : Hook Rules Argument :=
  {| ID := "build"; ExecuteCommand := "echo";
     CommandWorkingDirectory := "/tmp"; ResponseMessage := "build started";
     PassArgumentsToCommand := ["msg"]; JSONStringParameters := [];
     TriggerRule := None |}.

Definition progress : Hook Rules Argument :=
  {| ID := "progress"; ExecuteCommand := "echo";
     CommandWorkingDirectory := "/tmp"; ResponseMessage := "100%";
     PassArgumentsToCommand := []; JSONStringParameters := [];
     TriggerRule := Some false |}.

(** A hook whose command is not on the search path. *)
Definition deploy : Hook Rules Argument :=
  {| ID := "deploy"; ExecuteCommand := "deploy";
     CommandWorkingDirectory := "/srv"; ResponseMessage := "deploying";
     PassArgumentsToCommand := []; JSONStringParameters := [];
     TriggerRule := Some true |}.

(** A server that has loaded both hooks, the definitions file being
    [present] or not. *)
Definition server (present : option (Hooks Rules Argument))
    : Server Rules Argument FS :=
  {| hooks := [build; progress];
     files := λ path, if String.eqb path hooksFilePath then present else None;
     logged := []; started := []; executed := [] |}.

(** [POST /hooks/<id>?<query>] with a content type and a body. *)
Definition request (id query contentType body : string) : Request :=
  {| Vars_id := id;
     Header := {[ "Content-Type" := [contentType] ]};
     RawQuery := query;
     ReadAll_Body := (body, None) |}.

(** The collaborators together; [env_values] differs in the argument
    extraction only, [env_partial] in the JSON decoder only. *)
Definition env : Collaborators Rules Argument FS :=
  Build_Collaborators Rules Argument FS LoadFromFile Evaluate
    ExtractCommandArguments ParseJSONParameters json_Decode ParseQuery
    filepath_Base LookPath run hooksFilePath.


Definition env_values : Collaborators Rules Argument FS :=
  Build_Collaborators Rules Argument FS LoadFromFile Evaluate
    ExtractValues ParseJSONParameters json_Decode ParseQuery
    filepath_Base LookPath run hooksFilePath.

End Scenario.


(** ** The server (webhook.go) *)

Section Webhook.

Context {Rules Argument FS : Type} {env : Collaborators Rules Argument FS}.

Local Abbreviation Hook := (Hook Rules Argument).
Local Abbreviation Hooks := (Hooks Rules Argument).
Local Abbreviation Task := (Task Rules Argument).
Local Abbreviation Server := (Server Rules Argument FS).

(** *** exec.Command and Output *)

(** [exec.Command(name)]: a name without directory part is searched for. *)
Definition Command (name : string) : Cmd :=
  let cmd := {| Path := name; Args := [name]; Dir := ""; lookPathErr := None |} in
  if String.eqb (filepath_Base name) name then
    match LookPath name with
    | (_, Some err) =>
        {| Path := Path cmd; Args := Args cmd; Dir := Dir cmd;
           lookPathErr := Some err |}
    | (lp, None) =>
        {| Path := lp; Args := Args cmd; Dir := Dir cmd;
           lookPathErr := lookPathErr cmd |}
    end
  else cmd.

Definition set_Args (args : list string) (cmd : Cmd) : Cmd :=
  {| Path := Path cmd; Args := args; Dir := Dir cmd;
     lookPathErr := lookPathErr cmd |}.

Definition set_Dir (dir : string) (cmd : Cmd) : Cmd :=
  {| Path := Path cmd; Args := Args cmd; Dir := dir;
     lookPathErr := lookPathErr cmd |}.

(** [r.URL.Query()]: the parsed query, errors dropped. *)
Definition URL_Query (r : Request) : Values := fst (ParseQuery (RawQuery r)).

(** *** The monad of the program *)

Definition M (A : Type) : Type := Server → A * Server.

#[local] Instance M_ret : MRet M := λ A (x : A) s, (x, s).
#[local] Instance M_bind : MBind M :=
  λ A B (f : A → M B) (m : M A) s, let '(x, s') := m s in f x s'.

Definition getHooks : M Hooks := λ s, (hooks s, s).
Definition getFiles : M FS := λ s, (files s, s).

Definition setHooks (h : Hooks) : M unit := λ s,
  (tt, {| hooks := h; files := files s; logged := logged s;
          started := started s; executed := executed s |}).

Definition log (e : LogEntry) : M unit := λ s,
  (tt, {| hooks := hooks s; files := files s; logged := logged s ++ [e];
          started := started s; executed := executed s |}).

Definition go (t : Task) : M unit := λ s,
  (tt, {| hooks := hooks s; files := files s; logged := logged s;
          started := started s ++ [t]; executed := executed s |}).

(** [cmd.Output()]: the command is recorded; the result and the file
    system afterwards are those of the process, or the search error and the
    file system as it was when nothing could be started. *)
Definition Output (cmd : Cmd) : M (string * option Error) := λ s,
  let '(result, fs) :=
    match Start cmd with
    | Some p => run p (files s)
    | None => ("", lookPathErr cmd, files s)
    end in
  (result,
   {| hooks := hooks s; files := fs; logged := logged s;
      started := started s; executed := executed s ++ [cmd] |}).

(** [for _, x := range l { f(x) }]. *)
Fixpoint forEach {A : Type} (l : list A) (f : A → M unit) : M unit :=
  match l with
  | [] => mret tt
  | x :: l' => f x;; forEach l' f
  end.

(** [if err != nil { f(err) }]. *)
Definition whenErr (err : option Error) (f : Error → M unit) : M unit :=
  match err with
  | Some e => f e
  | None => mret tt
  end.

(** *** handleHook (lines 197-218) *)

(** [hook.TriggerRule == nil || hook.TriggerRule != nil && Evaluate(...)]. *)
Definition triggered (hook : Hook) (headers query : StrMap)
    (payload : option StrMap) (body : string) : bool :=
  match TriggerRule hook with
  | None => true
  | Some rule => Evaluate rule headers query payload body
  end.

Definition handleHook (hook : Hook) (headers query : StrMap)
    (payload : option StrMap) (body : string) : M unit :=
  if triggered hook headers query payload body then
    log (Printf "%s hook triggered successfully\n" [AString (ID hook)]);;
    let cmd := Command (ExecuteCommand hook) in
    let cmd := set_Args (ExtractCommandArguments hook headers query payload) cmd in
    let cmd := set_Dir (CommandWorkingDirectory hook) cmd in
    log (Printf "executing %s (%s) with arguments %s using %s as cwd\n"
           [AString (ExecuteCommand hook); AString (Path cmd);
            AStrings (Args cmd); AString (Dir cmd)]);;
    '(out, err) ← Output cmd;
    log (Printf "stdout: %s\n" [AString out]);;
    whenErr err (λ e, log (Printf "stderr: %+v\n" [AError e]));;
    log (Printf "finished handling %s\n" [AString (ID hook)])
  else
    log (Printf "%s hook did not get triggered\n" [AString (ID hook)]).

Definition runTask (t : Task) : M unit :=
  handleHook (t_hook t) (t_headers t) (t_query t) (t_payload t) (t_body t).

(** *** hookHandler (lines 142-195) *)

Definition hookHandler (w : ResponseWriter) (r : Request) : M ResponseWriter :=
  let id := Vars_id r in
  table ← getHooks;
  match Match table id with
  | Some hook =>
      log (Printf "%s got matched\n" [AString id]);;
      let '(body, err) := ReadAll_Body r in
      whenErr err
        (λ e, log (Printf "error reading the request body. %+v\n" [AError e]));;
      (* parse headers *)
      let headers := valuesToMap (Header r) in
      (* parse query variables *)
      let query := valuesToMap (URL_Query r) in
      (* parse body *)
      let contentType := Header_Get (Header r) "Content-Type" in
      payload ←
        (if HasPrefix contentType "application/json" then
           let '(payload, err) := json_Decode body in
           whenErr err
             (λ e, log (Printf "error parsing JSON payload %+v\n" [AError e]));;
           mret payload
         else if HasPrefix contentType "application/x-www-form-urlencoded" then
           let '(fd, err) := ParseQuery body in
           match err with
           | Some e =>
               log (Printf "error parsing form payload %+v\n" [AError e]);;
               mret None
           | None => mret (Some (valuesToMap fd))
           end
         else mret None);
      let '(headers, query, payload) :=
        ParseJSONParameters hook (headers, query, payload) in
      (* handle hook *)
      go {| t_hook := hook; t_headers := headers; t_query := query;
            t_payload := payload; t_body := body |};;
      (* send the hook defined response message *)
      mret (Fprintf w (ResponseMessage hook))
  | None =>
      mret (Fprintf (WriteHeader StatusNotFound w) "Hook not found.")
  end.

(** *** reloadHooks (lines 220-239) *)

Definition reloadHooks : M unit :=
  let newHooks : Hooks := [] in
  (* parse and swap *)
  log (Printf "attempting to reload hooks from %s\n" [AString hooksFilePath]);;
  fs ← getFiles;
  let '(newHooks, err) := LoadFromFile fs hooksFilePath newHooks in
  match err with
  | Some e => log (Printf "couldn't load hooks from file! %+v\n" [AError e])
  | None =>
      table ← getHooks;
      log (Printf "loaded %d hook(s) from file\n"
             [AInt (Z.of_nat (length table))]);;
      forEach table (λ hook, log (Printf "\t> %s\n" [AString (ID hook)]));;
      setHooks newHooks
  end.

(** *** The two watchers (lines 241-269) *)

(** One round of the [select] in [watchForFileChange], for what the
    watcher delivered: an event or an error. *)
Definition watchForFileChange_round (msg : Event + Error) : M unit :=
  match msg with
  | inl event =>
      if (Z.land (Op event) fsnotify_Write =? fsnotify_Write)%Z then
        log (Println [AString "hooks file modified"]);;
        reloadHooks
      else mret tt
  | inr err => log (Println [AString "watcher error:"; AError err])
  end.

(** One round of the loop of [watchForSignals], for the signal received. *)
Definition watchForSignals_round (sig : Signal) : M unit :=
  if (sig =? SIGUSR1)%Z then
    log (Println [AString "caught USR1 signal"]);;
    reloadHooks
  else
    log (Printf "caught unhandled signal %+v\n" [AInt sig]).

(** The loops, over what arrives on the channels. *)
Definition watchForFileChange (msgs : list (Event + Error)) : M unit :=
  forEach msgs watchForFileChange_round.

Definition watchForSignals (sigs : list Signal) : M unit :=
  log (Println [AString "os signal watcher ready"]);;
  forEach sigs watchForSignals_round.

(** *** init (lines 46-82) *)

Definition version : string := "2.3.2".

(** [init], as far as the table and the log go: the global is set to the
    empty slice, and the hooks are loaded with the global itself as the
    receiver.  Flag parsing and the logger's settings are left out, and so
    is [go watchForSignals()], whose loop is [watchForSignals] above. *)
Definition init : M unit :=
  setHooks [];;
  log (Println [AString ("version " ++ version ++ " starting")%string]);;
  (* set os signal watcher *)
  log (Printf "setting up os signal watcher\n" []);;
  (* load and parse hooks *)
  log (Printf "attempting to load hooks from %s\n" [AString hooksFilePath]);;
  fs ← getFiles;
  table ← getHooks;
  let '(table, err) := LoadFromFile fs hooksFilePath table in
  setHooks table;;
  match err with
  | Some e => log (Printf "couldn't load hooks from file! %+v\n" [AError e])
  | None =>
      table ← getHooks;
      log (Printf "loaded %d hook(s) from file\n"
             [AInt (Z.of_nat (length table))]);;
      forEach table (λ hook, log (Printf "\t> %s\n" [AString (ID hook)]))
  end.

(** *** Notions used in the statements *)

(** The state [s] with [entries] added to its log, and with another
    table. *)
Definition with_log (s : Server) (entries : list LogEntry) : Server :=
  {| hooks := hooks s; files := files s; logged := logged s ++ entries;
     started := started s; executed := executed s |}.

Definition with_hooks (s : Server) (h : Hooks) : Server :=
  {| hooks := h; files := files s; logged := logged s;
     started := started s; executed := executed s |}.

(** The table that a reload publishes: the freshly loaded one if the load
    returned no error, the previous one otherwise. *)
Definition reloaded (s : Server) : Hooks :=
  match LoadFromFile (files s) hooksFilePath [] with
  | (newHooks, None) => newHooks
  | (_, Some _) => hooks s
  end.

(** The command that [handleHook] builds for a hook (lines 201-203). *)
Definition hookCommand (hook : Hook) (headers query : StrMap)
    (payload : option StrMap) : Cmd :=
  set_Dir (CommandWorkingDirectory hook)
    (set_Args (ExtractCommandArguments hook headers query payload)
       (Command (ExecuteCommand hook))).

(** The log line for one hook of a table. *)
Definition hookLine (hook : Hook) : LogEntry :=
  Printf "\t> %s\n" [AString (ID hook)].

(** A message of the file watcher that makes [watchForFileChange] reload: an
    event with the [Write] bit. *)
Definition isWrite (msg : Event + Error) : bool :=
  match msg with
  | inl event => (Z.land (Op event) fsnotify_Write =? fsnotify_Write)%Z
  | inr _ => false
  end.

(** The task that [hookHandler] starts, from the maps as
    [ParseJSONParameters] returned them. *)
Definition taskOf (hook : Hook) (maps : StrMap * StrMap * option StrMap)
    (body : string) : Task :=
  {| t_hook := hook; t_headers := maps.1.1; t_query := maps.1.2;
     t_payload := maps.2; t_body := body |}.

(** Runs a computation of [M] on the state at hand. *)
Ltac run_M :=
  unfold whenErr, Output, log, go, getHooks, getFiles, setHooks,
    mbind, M_bind, mret, M_ret in *; simpl in *.

(** ** Properties *)

(** A format without ['%'] is written as it is. *)
Lemma Sprintf_noPercent (s : string) :
  fmt.noPercent s = true → fmt.Sprintf s = s.
Proof.
  unfold fmt.Sprintf. induction s as [|c s IH]; simpl; [done|].
  intros [Hc Hs]%andb_prop.
  apply negb_true_iff in Hc. rewrite Hc. f_equal. by apply IH.
Qed.

Lemma with_log_nil (s : Server) : with_log s [] = s.
Proof. destruct s. unfold with_log. simpl. by rewrite app_nil_r. Qed.

Lemma with_log_app (s : Server) (es1 es2 : list LogEntry) :
  with_log (with_log s es1) es2 = with_log s (es1 ++ es2).
Proof. unfold with_log. simpl. by rewrite app_assoc. Qed.

Lemma log_eq (e : LogEntry) (s : Server) : log e s = (tt, with_log s [e]).
Proof. reflexivity. Qed.

(** A loop whose body only logs only logs. *)
Lemma forEach_logs {A : Type} (l : list A) (f : A → M unit) :
  (∀ x s, ∃ es, f x s = (tt, with_log s es)) →
  ∀ s, ∃ es, forEach l f s = (tt, with_log s es).
Proof.
  intros Hf. induction l as [|x l IH]; intros s; simpl.
  - exists []. by rewrite with_log_nil.
  - unfold mbind, M_bind.
    destruct (Hf x s) as [es1 ->].
    destruct (IH (with_log s es1)) as [es2 ->].
    exists (es1 ++ es2). by rewrite with_log_app.
Qed.

Lemma reloadHooks_spec (s : Server) :
  ∃ es, reloadHooks s = (tt, with_hooks (with_log s es) (reloaded s)).
Proof.
  unfold reloadHooks, reloaded, mbind, M_bind, getFiles, getHooks, setHooks.
  rewrite log_eq. simpl.
  destruct (LoadFromFile (files s) hooksFilePath []) as [newHooks [e|]].
  - rewrite log_eq, with_log_app. eexists. reflexivity.
  - match goal with
    | |- context [forEach ?l ?f ?s0] =>
        destruct (forEach_logs l f (λ x s1, ex_intro _ _ (log_eq _ s1)) s0)
          as [es Hes]; rewrite Hes
    end.
    eexists. unfold with_hooks, with_log. simpl.
    rewrite <- !app_assoc. simpl. reflexivity.
Qed.

(** *** Reload *)

(** C1. If loading the definitions fails during a reload, the table that
    lookups see afterwards is the table from before the attempt, hook for
    hook and in the same order; the table is replaced only when the load
    succeeds, and then by the loaded table. *)
Theorem reloadHooks_failed_load_keeps_table (s : Server) :
  let s' := snd (reloadHooks s) in
  (∀ partial e,
      LoadFromFile (files s) hooksFilePath [] = (partial, Some e) →
      hooks s' = hooks s ∧ ∀ id, Match (hooks s') id = Match (hooks s) id)
  ∧ (∀ newHooks,
      LoadFromFile (files s) hooksFilePath [] = (newHooks, None) →
      hooks s' = newHooks)
  ∧ (hooks s' ≠ hooks s →
     ∃ newHooks, LoadFromFile (files s) hooksFilePath [] = (newHooks, None)).
Proof.
  destruct (reloadHooks_spec s) as [es Hs]. rewrite Hs. simpl.
  unfold reloaded.
  destruct (LoadFromFile (files s) hooksFilePath []) as [l [e|]] eqn:E.
  - split; [|split].
    + done.
    + discriminate.
    + done.
  - split; [|split].
    + discriminate.
    + by intros ? [= ->].
    + eauto.
Qed.

(** C9. A write event on the definitions path and the signal [SIGUSR1] run
    the same [reloadHooks]: from the same state (the same definitions
    source in particular) both leave the same table published, the one
    [reloadHooks] publishes, and differ in the log only. *)
Theorem watchers_reload_alike (s : Server) (event : Event) :
  Z.land (Op event) fsnotify_Write = fsnotify_Write →
  let viaFile := snd (watchForFileChange_round (inl event) s) in
  let viaSignal := snd (watchForSignals_round SIGUSR1 s) in
  hooks viaFile = hooks viaSignal
  ∧ hooks viaFile = hooks (snd (reloadHooks s))
  ∧ files viaFile = files viaSignal
  ∧ started viaFile = started viaSignal
  ∧ executed viaFile = executed viaSignal.
Proof.
  intros Hop. unfold watchForFileChange_round, watchForSignals_round.
  rewrite Hop, !Z.eqb_refl. unfold mbind, M_bind. rewrite !log_eq.
  destruct (reloadHooks_spec s) as [es0 ->].
  destruct (reloadHooks_spec
              (with_log s [Println [AString "hooks file modified"]]))
    as [es1 ->].
  destruct (reloadHooks_spec
              (with_log s [Println [AString "caught USR1 signal"]]))
    as [es2 ->].
  simpl. unfold reloaded. simpl. done.
Qed.

(** *** Dispatch *)

Lemma Fprintf_fresh (format : string) :
  Fprintf newResponseWriter format =
    {| wroteHeader := Some StatusOK; written := fmt.Sprintf format |}.
Proof. reflexivity. Qed.

(** What a request gets whose identifier matches [hook]: [StatusOK], and
    as body what [Fprintf] makes of [ResponseMessage] taken as a format.
    Neither the trigger rule nor the body of the request has a part in
    it. *)
Lemma hookHandler_matched (r : Request) (s : Server) (hook : Hook) :
  Match (hooks s) (Vars_id r) = Some hook →
  fst (hookHandler newResponseWriter r s) =
    {| wroteHeader := Some StatusOK;
       written := fmt.Sprintf (ResponseMessage hook) |}.
Proof.
  intros Hm. unfold hookHandler. run_M. rewrite Hm.
  repeat (case_match; simpl); reflexivity.
Qed.

(** C3. A request whose identifier matches no hook of the current table is
    answered with status 404 and the body ["Hook not found."]; the state is
    left as it was: nothing is logged, no context is built and handed to a
    goroutine, no command is run. *)
Theorem hookHandler_not_found (r : Request) (s : Server) :
  Match (hooks s) (Vars_id r) = None →
  let '(w', s') := hookHandler newResponseWriter r s in
  status w' = StatusNotFound
  ∧ written w' = "Hook not found."
  ∧ s' = s
  ∧ started s' = started s
  ∧ executed s' = executed s.
Proof.
  intros Hm. unfold hookHandler. run_M. rewrite Hm. done.
Qed.


(** *** Execution *)

Lemma handleHook_spec (hook : Hook) (headers query : StrMap)
    (payload : option StrMap) (body : string) (s : Server) :
  ∃ es fs,
    handleHook hook headers query payload body s =
      (tt, {| hooks := hooks s; files := fs;
              logged := logged s ++ es;
              started := started s;
              executed :=
                if triggered hook headers query payload body
                then executed s ++ [hookCommand hook headers query payload]
                else executed s |}).
Proof.
  unfold handleHook.
  destruct (triggered hook headers query payload body).
  - run_M. fold (hookCommand hook headers query payload).
    destruct (match Start _ with Some p => run p (files s) | None => _ end)
      as [[out [e|]] fs]; simpl;
      eexists; eexists; rewrite <- !app_assoc; simpl; reflexivity.
  - run_M. eexists. eexists. reflexivity.
Qed.


(** C7, as the code has it. For every triggered hook, the command handed to
    [Output] names the program by [executeCommand] (looked up on the search
    path when the name has no directory part), has
    [commandWorkingDirectory] as its directory, and has as its whole
    argument vector, position 0 included, the sequence returned by
    [ExtractCommandArguments]: [handleHook] puts no program name in front
    of it.  A process started from it therefore receives, after position
    0, the tail of the returned sequence. *)
Theorem handleHook_command (hook : Hook) (headers query : StrMap)
    (payload : option StrMap) (body : string) (s : Server) :
  triggered hook headers query payload body = true →
  let s' := snd (handleHook hook headers query payload body s) in
  let name := ExecuteCommand hook in
  let extracted := ExtractCommandArguments hook headers query payload in
  ∃ cmd,
    executed s' = executed s ++ [cmd]
    ∧ Args cmd = extracted
    ∧ Dir cmd = CommandWorkingDirectory hook
    ∧ (lookPathErr cmd = None →
       Path cmd = if String.eqb (filepath_Base name) name
                  then fst (LookPath name) else name)
    ∧ ∀ proc, Start cmd = Some proc →
        image proc = Path cmd
        ∧ directory proc = CommandWorkingDirectory hook
        ∧ arguments proc = match extracted with
                           | [] => [Path cmd]
                           | _ :: _ => extracted
                           end
        ∧ ∀ a0 rest, extracted = a0 :: rest →
            arguments proc = a0 :: rest ∧ tail (arguments proc) = rest.
Proof.
  intros Ht s' name extracted. subst s'.
  destruct (handleHook_spec hook headers query payload body s)
    as (es & fs & ->).
  simpl. rewrite Ht.
  exists (hookCommand hook headers query payload).
  split; [done|]. split; [done|]. split; [done|].
  assert (Hargs : argv (hookCommand hook headers query payload) =
                  match extracted with
                  | [] => [Path (hookCommand hook headers query payload)]
                  | _ :: _ => extracted
                  end).
  { unfold argv. simpl. fold extracted.
    destruct extracted; [done|].
    by rewrite bool_decide_eq_true_2 by (simpl; lia). }
  split.
  - unfold hookCommand, Command. simpl. fold name.
    destruct (String.eqb (filepath_Base name) name); [|done].
    destruct (LookPath name) as [lp [err|]]; simpl; [discriminate|done].
  - intros proc Hp. unfold Start in Hp.
    destruct (lookPathErr _); [discriminate|].
    injection Hp as <-. simpl.
    split; [done|]. split; [done|]. split; [exact Hargs|].
    intros a0 rest Hex. rewrite Hargs, Hex. done.
Qed.

(** *** More on reload, the watchers and init *)

(** A loop that logs one entry per element logs them in order. *)
Lemma forEach_log_map {A : Type} (l : list A) (g : A → LogEntry) (s : Server) :
  forEach l (λ x, log (g x)) s = (tt, with_log s (map g l)).
Proof.
  revert s. induction l as [|x l IH]; intros s; simpl.
  - by rewrite with_log_nil.
  - unfold mbind, M_bind. rewrite log_eq, IH, with_log_app. done.
Qed.

Lemma with_hooks_same (s : Server) : with_hooks s (hooks s) = s.
Proof. by destruct s. Qed.

Lemma with_hooks_log_same (s : Server) (es : list LogEntry) :
  with_hooks (with_log s es) (hooks s) = with_log s es.
Proof. reflexivity. Qed.

Lemma with_hooks_with_log (s : Server) (es1 es2 : list LogEntry) (h1 h2 : Hooks) :
  with_hooks (with_log (with_hooks (with_log s es1) h1) es2) h2
  = with_hooks (with_log s (es1 ++ es2)) h2.
Proof. unfold with_hooks, with_log. simpl. by rewrite app_assoc. Qed.

(** What a reload would publish does not depend on the log nor on the table
    it replaces, as long as that table is the old one or the reloaded one. *)
Lemma reloaded_again (s : Server) (es : list LogEntry) (h : Hooks) :
  h = hooks s ∨ h = reloaded s →
  reloaded (with_hooks (with_log s es) h) = reloaded s.
Proof.
  unfold reloaded. simpl.
  destruct (LoadFromFile (files s) hooksFilePath []) as [newHooks [e|]];
    intros [-> | ->]; done.
Qed.

Lemma reloaded_with_log (s : Server) (es : list LogEntry) :
  reloaded (with_log s es) = reloaded s.
Proof. reflexivity. Qed.

(** The log of a reload, entry for entry. *)
Lemma reloadHooks_run (s : Server) :
  reloadHooks s =
    (tt, with_hooks
           (with_log s
              (Printf "attempting to reload hooks from %s\n"
                 [AString hooksFilePath]
               :: match LoadFromFile (files s) hooksFilePath [] with
                  | (_, Some e) =>
                      [Printf "couldn't load hooks from file! %+v\n" [AError e]]
                  | (_, None) =>
                      Printf "loaded %d hook(s) from file\n"
                        [AInt (Z.of_nat (length (hooks s)))]
                      :: map hookLine (hooks s)
                  end))
           (reloaded s)).
Proof.
  unfold reloadHooks, reloaded, mbind, M_bind, getFiles, getHooks, setHooks.
  rewrite log_eq. simpl.
  destruct (LoadFromFile (files s) hooksFilePath []) as [newHooks [e|]].
  - rewrite log_eq, with_log_app. unfold with_hooks, with_log. simpl. done.
  - change (λ hook : Hook, log (Printf "\t> %s\n" [AString (ID hook)]))
      with (λ hook : Hook, log (hookLine hook)).
    rewrite forEach_log_map.
    unfold with_hooks, with_log. simpl.
    rewrite <- !app_assoc. simpl. reflexivity.
Qed.

(** X1. Reloading twice in a row publishes the same table as reloading
    once, whether the load succeeds or fails: the second reload reads the
    same file into a fresh slice again. *)
Theorem reloadHooks_idempotent (s : Server) :
  hooks (snd (reloadHooks (snd (reloadHooks s)))) = hooks (snd (reloadHooks s)).
Proof.
  rewrite (reloadHooks_run s). cbn [snd].
  rewrite reloadHooks_run. cbn [snd hooks with_hooks].
  apply reloaded_again. by right.
Qed.

(** X2. After a successful reload the log counts and lists the hooks of the
    table that was replaced, not those just loaded: the lines are printed
    from the global before it is assigned. *)
Theorem reloadHooks_logs_previous_table (s : Server) (newHooks : Hooks) :
  LoadFromFile (files s) hooksFilePath [] = (newHooks, None) →
  logged (snd (reloadHooks s)) =
    logged s
    ++ [Printf "attempting to reload hooks from %s\n" [AString hooksFilePath];
        Printf "loaded %d hook(s) from file\n"
          [AInt (Z.of_nat (length (hooks s)))]]
    ++ map hookLine (hooks s).
Proof.
  intros Hload. rewrite reloadHooks_run, Hload. reflexivity.
Qed.

(** X3. A reload changes the table and the log and nothing else: it starts no
    goroutine, runs no command, leaves the files alone, and only adds to the
    log; on a failed load the log gains the attempt and the error. *)
Theorem reloadHooks_touches_table_and_log (s : Server) :
  let s' := snd (reloadHooks s) in
  files s' = files s
  ∧ started s' = started s
  ∧ executed s' = executed s
  ∧ (∃ es, logged s' = logged s ++ es ∧ es ≠ [])
  ∧ ∀ partial e,
      LoadFromFile (files s) hooksFilePath [] = (partial, Some e) →
      logged s' =
        logged s
        ++ [Printf "attempting to reload hooks from %s\n"
              [AString hooksFilePath];
            Printf "couldn't load hooks from file! %+v\n" [AError e]].
Proof.
  rewrite reloadHooks_run. cbn [snd].
  split; [done|]. split; [done|]. split; [done|]. split.
  - eexists. split; [reflexivity|]. discriminate.
  - intros partial e ->. reflexivity.
Qed.

(** One round of the file watcher: a reload for a write event, and at most
    a log line otherwise. *)
Lemma watchForFileChange_round_run (msg : Event + Error) (s : Server) :
  ∃ es, watchForFileChange_round msg s =
          (tt, with_hooks (with_log s es)
                 (if isWrite msg then reloaded s else hooks s)).
Proof.
  destruct msg as [event|err]; simpl.
  - destruct (Z.land (Op event) fsnotify_Write =? fsnotify_Write)%Z.
    + unfold mbind, M_bind. rewrite log_eq, reloadHooks_run.
      rewrite reloaded_with_log.
      eexists. unfold with_hooks, with_log. simpl.
      rewrite <- app_assoc. reflexivity.
    + exists []. by rewrite with_log_nil, with_hooks_same.
  - rewrite log_eq. eexists. by rewrite with_hooks_log_same.
Qed.

(** One round of the signal watcher. *)
Lemma watchForSignals_round_run (sig : Signal) (s : Server) :
  ∃ es, watchForSignals_round sig s =
          (tt, with_hooks (with_log s es)
                 (if (sig =? SIGUSR1)%Z then reloaded s else hooks s)).
Proof.
  unfold watchForSignals_round.
  destruct (sig =? SIGUSR1)%Z.
  - unfold mbind, M_bind. rewrite log_eq, reloadHooks_run.
    rewrite reloaded_with_log.
    eexists. unfold with_hooks, with_log. simpl.
    rewrite <- app_assoc. reflexivity.
  - rewrite log_eq. eexists. by rewrite with_hooks_log_same.
Qed.

(** A loop of rounds that reload or only log: the table at the end is the
    reloaded one if some round reloaded. *)
Lemma forEach_rounds {A : Type} (reloads : A → bool) (round : A → M unit) :
  (∀ x s, ∃ es, round x s =
                  (tt, with_hooks (with_log s es)
                         (if reloads x then reloaded s else hooks s))) →
  ∀ l s, ∃ es, forEach l round s =
                 (tt, with_hooks (with_log s es)
                        (if existsb reloads l then reloaded s else hooks s)).
Proof.
  intros Hround l. induction l as [|x l IH]; intros s; simpl.
  - exists []. by rewrite with_log_nil, with_hooks_same.
  - unfold mbind, M_bind.
    destruct (Hround x s) as [es1 ->].
    destruct (IH (with_hooks (with_log s es1)
                    (if reloads x then reloaded s else hooks s)))
      as [es2 ->].
    exists (es1 ++ es2). rewrite with_hooks_with_log. f_equal. f_equal.
    rewrite reloaded_again by (destruct (reloads x); auto).
    destruct (reloads x); simpl; [by destruct (existsb reloads l)|done].
Qed.

(** X4. However many messages the file watcher delivers, the table at the
    end is the one a single reload publishes if some message was a write
    event, and the table from before otherwise: events without the [Write]
    bit and watcher errors never reload.  No round starts a goroutine or
    runs a command. *)
Theorem watchForFileChange_table (msgs : list (Event + Error)) (s : Server) :
  let s' := snd (watchForFileChange msgs s) in
  hooks s' = (if existsb isWrite msgs
              then hooks (snd (reloadHooks s)) else hooks s)
  ∧ files s' = files s
  ∧ started s' = started s
  ∧ executed s' = executed s.
Proof.
  unfold watchForFileChange.
  destruct (forEach_rounds isWrite watchForFileChange_round
              watchForFileChange_round_run msgs s) as [es ->].
  rewrite reloadHooks_run. cbn [snd]. done.
Qed.

(** X5. Of the signals that reach [watchForSignals] only [SIGUSR1] reloads:
    after any sequence of signals the table is the one a single reload
    publishes if [SIGUSR1] was among them, and the table from before
    otherwise; any other signal is logged and dropped. *)
Theorem watchForSignals_table (sigs : list Signal) (s : Server) :
  let s' := snd (watchForSignals sigs s) in
  hooks s' = (if existsb (λ sig : Signal, (sig =? SIGUSR1)%Z) sigs
              then hooks (snd (reloadHooks s)) else hooks s)
  ∧ files s' = files s
  ∧ started s' = started s
  ∧ executed s' = executed s.
Proof.
  unfold watchForSignals, mbind, M_bind. rewrite log_eq. cbv beta iota zeta.
  destruct (forEach_rounds (λ sig : Signal, (sig =? SIGUSR1)%Z)
              watchForSignals_round
              watchForSignals_round_run sigs
              (with_log s [Println [AString "os signal watcher ready"]]))
    as [es ->].
  rewrite reloadHooks_run. cbn [snd].
  split; [|done].
  destruct (existsb _ sigs); reflexivity.
Qed.

(** X6. At start the hooks are loaded into the published table itself: after
    [init] the table is what [LoadFromFile] left in the empty receiver, with
    or without an error, so a failed first load is not rolled back as a
    failed reload is; and on success the log lists the hooks just loaded. *)
Theorem init_publishes_what_was_loaded (s : Server) :
  let s' := snd (init s) in
  let loaded := LoadFromFile (files s) hooksFilePath [] in
  hooks s' = fst loaded
  ∧ files s' = files s
  ∧ started s' = started s
  ∧ executed s' = executed s
  ∧ (snd loaded = None →
     ∃ es, logged s' =
             logged s ++ es
             ++ Printf "loaded %d hook(s) from file\n"
                  [AInt (Z.of_nat (length (fst loaded)))]
                :: map hookLine (fst loaded)).
Proof.
  unfold init, mbind, M_bind, getFiles, getHooks, setHooks.
  rewrite !log_eq. cbn [fst snd hooks files with_log].
  destruct (LoadFromFile (files s) hooksFilePath []) as [table [e|]].
  - rewrite log_eq. cbn. split; [done|]. split; [done|]. split; [done|].
    split; [done|]. discriminate.
  - cbn [fst snd hooks].
    change (λ hook : Hook, log (Printf "\t> %s\n" [AString (ID hook)]))
      with (λ hook : Hook, log (hookLine hook)).
    rewrite log_eq, forEach_log_map. cbn.
    split; [done|]. split; [done|]. split; [done|]. split; [done|].
    intros _.
    exists [Println [AString ("version " ++ version ++ " starting")%string];
            Printf "setting up os signal watcher\n" [];
            Printf "attempting to load hooks from %s\n" [AString hooksFilePath]].
    unfold with_log. cbn [logged]. rewrite <- !app_assoc. reflexivity.
Qed.

(** *** More on dispatch *)

(** The response, for any writer: it is decided by the table and the
    identifier. *)
Lemma hookHandler_response (w : ResponseWriter) (r : Request) (s : Server) :
  fst (hookHandler w r s) =
    match Match (hooks s) (Vars_id r) with
    | Some hook => Fprintf w (ResponseMessage hook)
    | None => Fprintf (WriteHeader StatusNotFound w) "Hook not found."
    end.
Proof.
  unfold hookHandler. run_M.
  destruct (Match (hooks s) (Vars_id r)); [|done].
  repeat (case_match; simpl); reflexivity.
Qed.

(** X7. The response depends on the table and on the identifier in the path
    only: two requests for the same identifier get the same status and body
    against the same table, whatever their headers, query and body, whatever
    the trigger rule says, and whatever else the server has done so far. *)
Theorem hookHandler_response_by_id (w : ResponseWriter) (r1 r2 : Request)
    (s1 s2 : Server) :
  hooks s1 = hooks s2 →
  Vars_id r1 = Vars_id r2 →
  fst (hookHandler w r1 s1) = fst (hookHandler w r2 s2).
Proof.
  intros Hh Hid. rewrite !hookHandler_response, Hh, Hid. done.
Qed.

(** X8. A matched request makes the handler start exactly one goroutine, for
    the matched hook and with the body as read; the handler itself runs no
    command and leaves the table and the files as they are, and the first
    thing it logs is the match. *)
Theorem hookHandler_starts_one_task (r : Request) (s : Server) (hook : Hook) :
  Match (hooks s) (Vars_id r) = Some hook →
  let s' := snd (hookHandler newResponseWriter r s) in
  hooks s' = hooks s
  ∧ files s' = files s
  ∧ executed s' = executed s
  ∧ (∃ t, started s' = started s ++ [t]
          ∧ t_hook t = hook
          ∧ t_body t = fst (ReadAll_Body r))
  ∧ ∃ es, logged s' =
            logged s ++ Printf "%s got matched\n" [AString (Vars_id r)] :: es.
Proof.
  intros Hm. unfold hookHandler. run_M. rewrite Hm.
  destruct (ReadAll_Body r) as [body [e|]]; simpl;
    repeat (case_match; simplify_eq/=);
    (split; [done|]); (split; [done|]); (split; [done|]);
    (split; [eexists; split; [reflexivity|done]|]);
    eexists; rewrite <- ?app_assoc; simpl; reflexivity.
Qed.

(** X9. An error while reading the body does not stop the request: the
    error is logged, the response is still [StatusOK] with the hook's
    message written as a format (the message itself when it has no ['%']),
    and the goroutine is started with the bytes read so far. *)
Theorem hookHandler_body_read_error (r : Request) (s : Server) (hook : Hook)
    (partial : string) (e : Error) :
  Match (hooks s) (Vars_id r) = Some hook →
  ReadAll_Body r = (partial, Some e) →
  let '(w', s') := hookHandler newResponseWriter r s in
  status w' = StatusOK
  ∧ written w' = fmt.Sprintf (ResponseMessage hook)
  ∧ (fmt.noPercent (ResponseMessage hook) = true →
     written w' = ResponseMessage hook)
  ∧ Printf "error reading the request body. %+v\n" [AError e] ∈ logged s'
  ∧ ∃ t, started s' = started s ++ [t] ∧ t_hook t = hook ∧ t_body t = partial.
Proof.
  intros Hm Hbody. unfold hookHandler. run_M. rewrite Hm, Hbody. simpl.
  repeat (case_match; simplify_eq/=);
    (split; [done|]); (split; [done|]);
    (split; [apply Sprintf_noPercent|]);
    (split; [|eexists; split; [reflexivity|done]]);
    rewrite ?elem_of_app, !list_elem_of_singleton; tauto.
Qed.

(** X10. When the content type starts neither with ["application/json"] nor
    with ["application/x-www-form-urlencoded"] (a missing header included),
    the body is not decoded at all: the payload handed to
    [ParseJSONParameters] is nil whatever the body holds, and nothing but
    the match (and a read error) is logged. *)
Theorem hookHandler_other_content_type (r : Request) (s : Server) (hook : Hook) :
  Match (hooks s) (Vars_id r) = Some hook →
  let contentType := Header_Get (Header r) "Content-Type" in
  HasPrefix contentType "application/json" = false →
  HasPrefix contentType "application/x-www-form-urlencoded" = false →
  let s' := snd (hookHandler newResponseWriter r s) in
  started s' =
    started s
    ++ [taskOf hook
          (ParseJSONParameters hook
             (valuesToMap (Header r), valuesToMap (URL_Query r), None))
          (fst (ReadAll_Body r))]
  ∧ logged s' =
      logged s
      ++ Printf "%s got matched\n" [AString (Vars_id r)]
         :: match snd (ReadAll_Body r) with
            | Some e => [Printf "error reading the request body. %+v\n" [AError e]]
            | None => []
            end.
Proof.
  intros Hm contentType Hj Hf. subst contentType.
  unfold hookHandler. run_M. rewrite Hm, Hj, Hf.
  destruct (ReadAll_Body r) as [body [e|]]; simpl;
    destruct (ParseJSONParameters hook _) as [[headers query] payload];
    simpl; rewrite <- ?app_assoc; done.
Qed.

(** Every string has its own beginning as a prefix. *)
Lemma HasPrefix_app (prefix rest : string) :
  HasPrefix (prefix ++ rest)%string prefix = true.
Proof.
  unfold HasPrefix. induction prefix as [|c prefix IH]; simpl.
  - by destruct rest.
  - destruct (ascii_dec c c); [exact IH|done].
Qed.

(** X11. The content type is matched by prefix on the first value of the
    header: a type such as ["application/json; charset=utf-8"] is decoded
    as JSON, and the payload handed on is the map the decoder left. *)
Theorem hookHandler_json_by_prefix (r : Request) (s : Server) (hook : Hook)
    (suffix : string) (more : list string) :
  Match (hooks s) (Vars_id r) = Some hook →
  Header r !! "Content-Type" = Some (("application/json" ++ suffix)%string :: more) →
  let s' := snd (hookHandler newResponseWriter r s) in
  let body := fst (ReadAll_Body r) in
  started s' =
    started s
    ++ [taskOf hook
          (ParseJSONParameters hook
             (valuesToMap (Header r), valuesToMap (URL_Query r),
              fst (json_Decode body)))
          body].
Proof.
  intros Hm Hct. unfold hookHandler. run_M. rewrite Hm.
  unfold Header_Get. rewrite Hct.
  rewrite HasPrefix_app.
  destruct (ReadAll_Body r) as [body [e|]]; simpl;
    destruct (json_Decode body) as [payload [e'|]]; simpl;
    destruct (ParseJSONParameters hook _) as [[headers query] payload'];
    done.
Qed.

(** X17. A form body that parses becomes the payload through
    [valuesToMap], so a field sent several times keeps its first value only,
    as headers and query parameters do. *)
Theorem hookHandler_form_payload (r : Request) (s : Server) (hook : Hook)
    (fd : Values) :
  Match (hooks s) (Vars_id r) = Some hook →
  HasPrefix (Header_Get (Header r) "Content-Type") "application/json" = false →
  HasPrefix (Header_Get (Header r) "Content-Type")
    "application/x-www-form-urlencoded" = true →
  ParseQuery (fst (ReadAll_Body r)) = (fd, None) →
  started (snd (hookHandler newResponseWriter r s)) =
    started s
    ++ [taskOf hook
          (ParseJSONParameters hook
             (valuesToMap (Header r), valuesToMap (URL_Query r),
              Some (valuesToMap fd)))
          (fst (ReadAll_Body r))].
Proof.
  intros Hm Hj Hf Hq.
  unfold hookHandler. run_M. rewrite Hm, Hj, Hf.
  destruct (ReadAll_Body r) as [body [e|]]; simpl in *; rewrite Hq;
    destruct (ParseJSONParameters hook _) as [[headers query] payload'];
    done.
Qed.

(** *** More on execution, and how the parts compose *)

(** The run of a triggered hook, entry for entry: the result and the files
    afterwards are those of [Output]. *)
Lemma handleHook_triggered_run (hook : Hook) (headers query : StrMap)
    (payload : option StrMap) (body : string) (s : Server) :
  triggered hook headers query payload body = true →
  let cmd := hookCommand hook headers query payload in
  let result := fst (Output cmd s) in
  handleHook hook headers query payload body s =
    (tt, {| hooks := hooks s; files := files (snd (Output cmd s));
            logged :=
              logged s
              ++ [Printf "%s hook triggered successfully\n" [AString (ID hook)];
                  Printf "executing %s (%s) with arguments %s using %s as cwd\n"
                    [AString (ExecuteCommand hook); AString (Path cmd);
                     AStrings (Args cmd); AString (Dir cmd)];
                  Printf "stdout: %s\n" [AString (fst result)]]
              ++ match snd result with
                 | Some e => [Printf "stderr: %+v\n" [AError e]]
                 | None => []
                 end
              ++ [Printf "finished handling %s\n" [AString (ID hook)]];
            started := started s;
            executed := executed s ++ [cmd] |}).
Proof.
  intros Ht. unfold handleHook. rewrite Ht. run_M.
  fold (hookCommand hook headers query payload).
  destruct (match Start _ with Some p => run p (files s) | None => _ end)
    as [[out [e|]] fs]; simpl; rewrite <- !app_assoc; reflexivity.
Qed.

(** X12. [handleHook] never touches the table or the list of goroutines,
    and only adds to the log; for a hook that is not triggered all it does
    is log one line. *)
Theorem handleHook_frame (hook : Hook) (headers query : StrMap)
    (payload : option StrMap) (body : string) (s : Server) :
  let s' := snd (handleHook hook headers query payload body s) in
  hooks s' = hooks s
  ∧ started s' = started s
  ∧ (∃ es, logged s' = logged s ++ es)
  ∧ (triggered hook headers query payload body = false →
     s' = with_log s
            [Printf "%s hook did not get triggered\n" [AString (ID hook)]]).
Proof.
  destruct (triggered hook headers query payload body) eqn:Ht.
  - rewrite (handleHook_triggered_run _ _ _ _ _ _ Ht). cbn [snd].
    split; [done|]. split; [done|]. split; [|done].
    eexists. reflexivity.
  - unfold handleHook. rewrite Ht, log_eq. cbn [snd].
    split; [done|]. split; [done|]. split; [|done].
    eexists. reflexivity.
Qed.

(** X13. When the command has no directory part and is not found on the
    search path, a triggered hook starts no process; the lookup error is
    logged as the command's error after an empty output, and the hook is
    still logged as finished. *)
Theorem handleHook_command_not_found (hook : Hook) (headers query : StrMap)
    (payload : option StrMap) (body : string) (s : Server)
    (lp : string) (err : Error) :
  triggered hook headers query payload body = true →
  filepath_Base (ExecuteCommand hook) = ExecuteCommand hook →
  LookPath (ExecuteCommand hook) = (lp, Some err) →
  let cmd := hookCommand hook headers query payload in
  let s' := snd (handleHook hook headers query payload body s) in
  Start cmd = None
  ∧ logged s' =
      logged s
      ++ [Printf "%s hook triggered successfully\n" [AString (ID hook)];
          Printf "executing %s (%s) with arguments %s using %s as cwd\n"
            [AString (ExecuteCommand hook); AString (ExecuteCommand hook);
             AStrings (ExtractCommandArguments hook headers query payload);
             AString (CommandWorkingDirectory hook)];
          Printf "stdout: %s\n" [AString ""];
          Printf "stderr: %+v\n" [AError err];
          Printf "finished handling %s\n" [AString (ID hook)]].
Proof.
  intros Ht Hbase Hlook cmd s'. subst cmd s'.
  rewrite (handleHook_triggered_run _ _ _ _ _ _ Ht). cbn [snd logged].
  unfold Output, hookCommand, Command, Start. cbn [fst].
  rewrite Hbase, String.eqb_refl, Hlook. simpl. done.
Qed.

(** X14. When the process is started, what it printed is logged, an error
    it ended with is logged after that, and the hook is logged as finished
    either way: the error goes no further. *)
Theorem handleHook_logs_outcome (hook : Hook) (headers query : StrMap)
    (payload : option StrMap) (body : string) (s : Server) (proc : Process) :
  triggered hook headers query payload body = true →
  let cmd := hookCommand hook headers query payload in
  let s' := snd (handleHook hook headers query payload body s) in
  Start cmd = Some proc →
  let outcome := fst (run proc (files s)) in
  ∃ es,
    logged s' =
      logged s ++ es
      ++ Printf "stdout: %s\n" [AString (fst outcome)]
         :: match snd outcome with
            | Some e => [Printf "stderr: %+v\n" [AError e]]
            | None => []
            end
      ++ [Printf "finished handling %s\n" [AString (ID hook)]].
Proof.
  intros Ht cmd s' Hs outcome. subst s' outcome.
  rewrite (handleHook_triggered_run _ _ _ _ _ _ Ht). cbn [snd logged].
  unfold Output. fold cmd. rewrite Hs.
  destruct (run proc (files s)) as [[out e] fs]. cbn [fst snd].
  eexists [_; _]. reflexivity.
Qed.

(** What a matched request leaves behind: the log grown, and one more
    goroutine, for the hook, with the maps as [ParseJSONParameters]
    returned them and the body as read. *)
Lemma hookHandler_matched_state (r : Request) (s : Server) (hook : Hook) :
  Match (hooks s) (Vars_id r) = Some hook →
  let body := fst (ReadAll_Body r) in
  let contentType := Header_Get (Header r) "Content-Type" in
  let payload :=
    if HasPrefix contentType "application/json" then fst (json_Decode body)
    else if HasPrefix contentType "application/x-www-form-urlencoded" then
      match ParseQuery body with
      | (fd, None) => Some (valuesToMap fd)
      | (_, Some _) => None
      end
    else None in
  ∃ es,
    snd (hookHandler newResponseWriter r s) =
      {| hooks := hooks s; files := files s; logged := logged s ++ es;
         started :=
           started s
           ++ [taskOf hook
                 (ParseJSONParameters hook
                    (valuesToMap (Header r), valuesToMap (URL_Query r),
                     payload))
                 body];
         executed := executed s |}.
Proof.
  intros Hm body contentType payload. subst body contentType payload.
  unfold hookHandler. run_M. rewrite Hm.
  destruct (ReadAll_Body r) as [body [e|]]; simpl;
    destruct (HasPrefix _ "application/json");
    [ destruct (json_Decode body) as [p [e'|]]
    | destruct (HasPrefix _ "application/x-www-form-urlencoded");
      [destruct (ParseQuery body) as [fd [e'|]]|]
    | destruct (json_Decode body) as [p [e'|]]
    | destruct (HasPrefix _ "application/x-www-form-urlencoded");
      [destruct (ParseQuery body) as [fd [e'|]]|] ];
    simpl;
    destruct (ParseJSONParameters hook _) as [[headers query] payload'];
    simpl; eexists; rewrite <- ?app_assoc; reflexivity.
Qed.

(** X15. Dispatch and execution together.  For a matched request the
    handler starts one goroutine: for the matched hook, with the maps as
    [ParseJSONParameters] returned them for the normalised headers and
    query and the decoded payload, and with the raw body as read.  That
    goroutine, once run, hands to [Output] the command built from those
    maps if the hook is triggered on them and the raw body, and nothing
    otherwise; the table is the same before and after. *)
Theorem hookHandler_then_handleHook (r : Request) (s : Server) (hook : Hook) :
  Match (hooks s) (Vars_id r) = Some hook →
  let body := fst (ReadAll_Body r) in
  let contentType := Header_Get (Header r) "Content-Type" in
  let payload :=
    if HasPrefix contentType "application/json" then fst (json_Decode body)
    else if HasPrefix contentType "application/x-www-form-urlencoded" then
      match ParseQuery body with
      | (fd, None) => Some (valuesToMap fd)
      | (_, Some _) => None
      end
    else None in
  let t :=
    taskOf hook
      (ParseJSONParameters hook
         (valuesToMap (Header r), valuesToMap (URL_Query r), payload))
      body in
  let s1 := snd (hookHandler newResponseWriter r s) in
  let s2 := snd (runTask t s1) in
  started s1 = started s ++ [t]
  ∧ hooks s2 = hooks s
  ∧ executed s2 =
      executed s
      ++ (if triggered hook (t_headers t) (t_query t) (t_payload t) body
          then [hookCommand hook (t_headers t) (t_query t) (t_payload t)]
          else []).
Proof.
  intros Hm body contentType payload t s1 s2.
  destruct (hookHandler_matched_state r s hook Hm) as [es Hs1].
  fold body contentType payload t s1 in Hs1.
  subst s2. rewrite Hs1. split; [done|].
  unfold runTask.
  change (t_hook t) with hook. change (t_body t) with body.
  match goal with
  | |- context [handleHook hook ?h ?q ?p body ?s0] =>
      destruct (handleHook_spec hook h q p body s0) as (es' & fs & ->)
  end.
  cbn [snd hooks executed]. split; [done|].
  destruct (triggered _ _ _ _ _); [done|by rewrite app_nil_r].
Qed.

(** X16. A reload takes effect for the next request: after a load that
    succeeded, requests are answered from the loaded table, so a hook that
    is in it answers [StatusOK] with its message written as a format (the
    message itself when it has no ['%']) and an identifier that is no longer
    in it gets 404, whatever the table held before. *)
Theorem reloadHooks_then_hookHandler (r : Request) (s : Server)
    (newHooks : Hooks) :
  LoadFromFile (files s) hooksFilePath [] = (newHooks, None) →
  let w' := fst (hookHandler newResponseWriter r (snd (reloadHooks s))) in
  (∀ hook, Match newHooks (Vars_id r) = Some hook →
     status w' = StatusOK
     ∧ written w' = fmt.Sprintf (ResponseMessage hook)
     ∧ (fmt.noPercent (ResponseMessage hook) = true →
        written w' = ResponseMessage hook))
  ∧ (Match newHooks (Vars_id r) = None →
     status w' = StatusNotFound ∧ written w' = "Hook not found.").
Proof.
  intros Hload w'. subst w'.
  rewrite hookHandler_response, reloadHooks_run. cbn [snd hooks with_hooks].
  unfold reloaded. rewrite Hload.
  split.
  - intros hook ->. split; [done|]. split; [done|].
    apply Sprintf_noPercent.
  - intros ->. done.
Qed.

End Webhook.

(** ** Properties of the normalisation and of the formatter *)

(** *** What the loop of [valuesToMap] computes *)

Lemma valuesToMap_body_lookup key value ret k :
  valuesToMap_body key value ret !! k =
    if decide (key = k)
    then match value with
         | [] => ret !! k
         | v :: _ => Some (IString v)
         end
    else ret !! k.
Proof.
  unfold valuesToMap_body.
  destruct value as [|v vs].
  - rewrite bool_decide_eq_false_2 by (simpl; lia). by case_decide.
  - rewrite bool_decide_eq_true_2 by (simpl; lia).
    simpl. rewrite lookup_insert. by case_decide.
Qed.

(** The result binds [k] exactly when the input list at [k] has a head. *)
Lemma valuesToMap_lookup (values : Values) (k : string) :
  valuesToMap values !! k = values !! k ≫= (λ value, IString <$> head value).
Proof.
  unfold valuesToMap.
  apply (map_fold_weak_ind
           (λ (r : StrMap) (m : Values),
              r !! k = m !! k ≫= (λ value, IString <$> head value))).
  - by rewrite !lookup_empty.
  - intros i x m r Hi IH.
    rewrite valuesToMap_body_lookup, lookup_insert.
    case_decide as Hik.
    + subst i. destruct x as [|v vs]; simpl; [|done].
      by rewrite IH, Hi.
    + done.
Qed.

(** *** C4 and C10: normalisation of multi-valued maps *)

(** C4. For every multi-valued header or query map, [valuesToMap] binds
    each key that has values to the first value of its list, and every
    binding of the result is such a first value; the multi-map of the query
    string [a=1&a=2], which is [a ↦ ["1"; "2"]], normalises to
    [{"a": "1"}]. *)
Theorem valuesToMap_first_value :
  (∀ (values : Values) key v vs,
      values !! key = Some (v :: vs) →
      valuesToMap values !! key = Some (IString v))
  ∧ (∀ (values : Values) key x,
      valuesToMap values !! key = Some x →
      ∃ v vs, values !! key = Some (v :: vs) ∧ x = IString v)
  ∧ valuesToMap {[ "a" := ["1"; "2"] ]} = {[ "a" := IString "1" ]}.
Proof.
  split; [|split].
  - intros values key v vs H. by rewrite valuesToMap_lookup, H.
  - intros values key x. rewrite valuesToMap_lookup.
    destruct (values !! key) as [[|v vs]|]; simpl; try discriminate.
    intros [= <-]. eauto.
  - apply map_eq. intros k. rewrite valuesToMap_lookup.
    destruct (decide (k = "a")) as [->|Hk].
    + by rewrite !lookup_singleton_eq.
    + by rewrite !lookup_singleton_ne.
Qed.

(** The query [a=1&a=2&b=] seen through the general statement. *)
Lemma valuesToMap_first_value_witness :
  valuesToMap {[ "a" := ["1"; "2"]; "b" := [""] ]} !! "a"
    = Some (IString "1").
Proof.
  apply (proj1 valuesToMap_first_value _ "a" "1" ["2"]).
  reflexivity.
Defined.

(** C10. Every key whose value list is empty is omitted from the result;
    every key of the result is bound to the first element of a non-empty
    input list; the result has no key that the input lacked. *)
Theorem valuesToMap_omits_empty :
  (∀ (values : Values) key,
      values !! key = Some [] → valuesToMap values !! key = None)
  ∧ (∀ (values : Values) key x,
      valuesToMap values !! key = Some x →
      ∃ value, values !! key = Some value ∧ 0 < length value
               ∧ x = IString (nth 0 value ""))
  ∧ (∀ (values : Values) key,
      values !! key = None → valuesToMap values !! key = None)
  ∧ (∀ (values : Values), dom (valuesToMap values) ⊆ dom values).
Proof.
  repeat split.
  - intros values key H. by rewrite valuesToMap_lookup, H.
  - intros values key x. rewrite valuesToMap_lookup.
    destruct (values !! key) as [[|v vs]|]; simpl; try discriminate.
    intros [= <-]. exists (v :: vs). simpl. split; [done|]. split; [lia|done].
  - intros values key H. by rewrite valuesToMap_lookup, H.
  - intros values key. rewrite !elem_of_dom, valuesToMap_lookup.
    destruct (values !! key); simpl; [eauto|].
    by intros [? ?].
Qed.

(** A header map with an empty list under [X-Empty]. *)
Lemma valuesToMap_omits_empty_witness :
  valuesToMap {[ "X-Empty" := []; "Accept" := ["*/*"] ]} !! "X-Empty" = None.
Proof.
  apply (proj1 valuesToMap_omits_empty _ "X-Empty").
  reflexivity.
Defined.

(** *** Formats without operands *)

Example Sprintf_plain : fmt.Sprintf "Hook not found." = "Hook not found.".
Proof. reflexivity. Qed.

Example Sprintf_percent_end : fmt.Sprintf "100%" = "100%!(NOVERB)".
Proof. reflexivity. Qed.

Example Sprintf_percent_verb : fmt.Sprintf "50% done" = "50%!d(MISSING)one".
Proof. reflexivity. Qed.

Example Sprintf_percent_percent : fmt.Sprintf "100%% sure" = "100% sure".
Proof. reflexivity. Qed.

Example Sprintf_final_dot : fmt.Sprintf "100%." = "100%!.(MISSING)".
Proof. reflexivity. Qed.

Example Sprintf_precision_no_verb : fmt.Sprintf "%.2" = "%!(NOVERB)".
Proof. reflexivity. Qed.

Example Sprintf_index :
  fmt.Sprintf "%[2]d|%.*f|%"
    = "%!d(BADINDEX)|%!(BADPREC)%!f(MISSING)|%!(NOVERB)".
Proof. reflexivity. Qed.

(** X21. When the response message has no ['%'] in it, a matched request is
    answered with [StatusOK] and the message itself as the body. *)
Lemma hookHandler_matched_verbatim {Rules Argument FS : Type}
    {env : Collaborators Rules Argument FS}
    (r : Request) (s : Server Rules Argument FS) (hook : Hook Rules Argument) :
  Match (hooks s) (Vars_id r) = Some hook →
  fmt.noPercent (ResponseMessage hook) = true →
  let w' := fst (hookHandler newResponseWriter r s) in
  status w' = StatusOK ∧ written w' = ResponseMessage hook.
Proof.
  intros Hm Hn. simpl. rewrite (hookHandler_matched _ _ _ Hm). simpl.
  by rewrite Sprintf_noPercent.
Qed.

(** ** The theorems at work on the concrete deployment *)

Example ParseQuery_repeated :
  Scenario.ParseQuery "a=1&a=2" = ({[ "a" := ["1"; "2"] ]}, None).
Proof. vm_compute. reflexivity. Qed.

(** C1 on a server whose definitions file has gone missing: the reload logs
    the error and both hooks stay published. *)
Lemma reloadHooks_failed_load_witness :
  hooks (snd (reloadHooks (env := Scenario.env) (Scenario.server None)))
    = [Scenario.build; Scenario.progress].
Proof.
  destruct (reloadHooks_failed_load_keeps_table (env := Scenario.env)
              (Scenario.server None)) as [Hfail _].
  destruct (Hfail [] _ eq_refl) as [Hsame _].
  exact Hsame.
Defined.

(** C9 on a write event (a write combined with a chmod) against the signal,
    the file now holding the [build] hook alone. *)
Lemma watchers_reload_alike_witness :
  let s := Scenario.server (Some [Scenario.build]) in
  let event := {| Name := "hooks.json";
                  Op := Z.lor fsnotify_Write fsnotify_Chmod |} in
  hooks (snd (watchForFileChange_round (env := Scenario.env) (inl event) s))
    = hooks (snd (watchForSignals_round (env := Scenario.env) SIGUSR1 s)).
Proof.
  intros s event.
  exact (proj1 (watchers_reload_alike (env := Scenario.env) s event eq_refl)).
Defined.

(** C3 on the request [/hooks/doesnotexist]. *)
Lemma hookHandler_not_found_witness :
  let s := Scenario.server None in
  let '(w', s') :=
    hookHandler (env := Scenario.env) newResponseWriter
      (Scenario.request "doesnotexist" "" "text/plain" "") s in
  status w' = StatusNotFound
  ∧ written w' = "Hook not found."
  ∧ s' = s
  ∧ started s' = started s
  ∧ executed s' = executed s.
Proof.
  exact (hookHandler_not_found (env := Scenario.env)
           (Scenario.request "doesnotexist" "" "text/plain" "")
           (Scenario.server None) eq_refl).
Defined.

(** C2, at a hook whose response message is ["100%"]: the request matches
    the hook and is answered with [StatusOK], but the body is the message
    run through [Fprintf] as a format, ["100%!(NOVERB)"], not the message
    character for character. *)
Theorem hookHandler_percent_message :
  let s := Scenario.server None in
  let r := Scenario.request "progress" "" "text/plain" "" in
  let w' := fst (hookHandler (env := Scenario.env) newResponseWriter r s) in
  Match (hooks s) (Vars_id r) = Some Scenario.progress
  ∧ ResponseMessage Scenario.progress = "100%"
  ∧ status w' = StatusOK
  ∧ written w' = "100%!(NOVERB)"
  ∧ written w' ≠ ResponseMessage Scenario.progress.
Proof.
  intros s r w'. subst w'.
  split; [reflexivity|]. split; [reflexivity|].
  rewrite (hookHandler_matched (env := Scenario.env) r s Scenario.progress
             eq_refl).
  split; [reflexivity|]. split; [reflexivity|]. discriminate.
Qed.




(** C7 as stated fails.  The claim puts the sequence returned by the
    argument extraction after the program name.  For [/hooks/build?msg=hi]
    the process gets that sequence as its whole argument vector: with an
    extraction that returns the command and then the value, the arguments
    after the program name are [["hi"]], not the sequence returned; with an
    extraction that returns the value alone, ["hi"] sits in the place of the
    program name and no argument follows it. *)
Lemma handleHook_arguments_counterexample :
  let query : StrMap := {[ "msg" := IString "hi" ]} in
  let s := Scenario.server None in
  (∃ cmd proc,
      executed
        (snd (handleHook (env := Scenario.env) Scenario.build ∅ query None "" s))
        = [cmd]
      ∧ Start cmd = Some proc
      ∧ image proc = "/bin/echo"
      ∧ Scenario.ExtractCommandArguments Scenario.build ∅ query None
        = ["echo"; "hi"]
      ∧ arguments proc = ["echo"; "hi"]
      ∧ tail (arguments proc)
        ≠ Scenario.ExtractCommandArguments Scenario.build ∅ query None)
  ∧ (∃ cmd proc,
      executed
        (snd (handleHook (env := Scenario.env_values) Scenario.build ∅ query
                None "" s))
        = [cmd]
      ∧ Start cmd = Some proc
      ∧ image proc = "/bin/echo"
      ∧ Scenario.ExtractValues Scenario.build ∅ query None = ["hi"]
      ∧ arguments proc = ["hi"]
      ∧ tail (arguments proc)
        ≠ Scenario.ExtractValues Scenario.build ∅ query None).
Proof.
  intros query s.
  assert (Hq : Scenario.queryValue query "msg" = "hi")
    by (vm_compute; reflexivity).
  split.
  - eexists. eexists.
    split; [reflexivity|]. split; [reflexivity|]. split; [reflexivity|].
    unfold Scenario.ExtractCommandArguments. simpl. rewrite Hq.
    split; [reflexivity|]. split; [reflexivity|]. discriminate.
  - eexists. eexists.
    split; [reflexivity|]. split; [reflexivity|]. split; [reflexivity|].
    unfold Scenario.ExtractValues. simpl. rewrite Hq.
    split; [reflexivity|]. split; [reflexivity|]. discriminate.
Qed.

(** C7 on the end-to-end scenario, with the extraction that returns the
    command first: [echo] is started in [/tmp] with the vector
    [["echo"; "hi"]], that is, with the argument [["hi"]]. *)
Lemma handleHook_command_witness :
  let query : StrMap := {[ "msg" := IString "hi" ]} in
  let s := Scenario.server None in
  ∃ cmd proc,
    executed
      (snd (handleHook (env := Scenario.env) Scenario.build ∅ query None "" s))
      = [cmd]
    ∧ Start cmd = Some proc
    ∧ image proc = "/bin/echo"
    ∧ directory proc = "/tmp"
    ∧ arguments proc = ["echo"; "hi"]
    ∧ tail (arguments proc) = ["hi"].
Proof.
  intros query s.
  assert (Hq : Scenario.queryValue query "msg" = "hi")
    by (vm_compute; reflexivity).
  destruct (handleHook_command (env := Scenario.env)
              Scenario.build ∅ query None "" s eq_refl)
    as (cmd & Hex & Hargs & Hdir & Hpath & Hstart).
  assert (Hnone : lookPathErr cmd = None).
  { injection Hex as <-. reflexivity. }
  specialize (Hpath Hnone).
  exists cmd, {| image := Path cmd; arguments := argv cmd; directory := Dir cmd |}.
  assert (Hs : Start cmd = Some {| image := Path cmd; arguments := argv cmd;
                                   directory := Dir cmd |})
    by (unfold Start; by rewrite Hnone).
  destruct (Hstart _ Hs) as (_ & _ & _ & Hrest).
  destruct (Hrest "echo" ["hi"]) as [Ha Ht].
  { simpl. unfold Scenario.ExtractCommandArguments. simpl. by rewrite Hq. }
  split; [exact Hex|]. split; [exact Hs|].
  split; [exact Hpath|]. split; [exact Hdir|].
  split; [exact Ha|exact Ht].
Defined.

(** The whole path for [/hooks/build?msg=hi]: the response is written, the
    goroutine started by the handler runs, and one command is executed. *)
Example end_to_end_build :
  let s := Scenario.server None in
  let r := Scenario.request "build" "msg=hi" "text/plain" "" in
  let '(w', s1) := hookHandler (env := Scenario.env) newResponseWriter r s in
  let s2 := snd (forEach (started s1) (runTask (env := Scenario.env)) s1) in
  status w' = StatusOK
  ∧ written w' = "build started"
  ∧ map argv (executed s2) = [["echo"; "hi"]]
  ∧ map Dir (executed s2) = ["/tmp"]
  ∧ map Path (executed s2) = ["/bin/echo"].
Proof. vm_compute. repeat split; reflexivity. Qed.

(** ** Further properties *)

(** *** Response messages as formats *)

(** Text without ['%'] in front of a format is copied. *)
Lemma doPrintf_text (text rest : string) :
  fmt.noPercent text = true →
  fmt.doPrintf 0 (text ++ rest)%string = (text ++ fmt.doPrintf 0 rest)%string.
Proof.
  induction text as [|c text IH]; [done|].
  intros [Hc Ht]%andb_prop.
  apply negb_true_iff in Hc.
  change (fmt.doPrintf 0 (String c (text ++ rest)%string)
          = String c (text ++ fmt.doPrintf 0 rest)%string).
  cbn [fmt.doPrintf]. rewrite Hc, IH by done. reflexivity.
Qed.

(** The directive ["%%"]. *)
Lemma directive_percent (rest : string) :
  fmt.directive 0 (String "%" rest) = ("%", rest).
Proof. reflexivity. Qed.

(** A doubled percent sign is written as one. *)
Lemma doPrintf_percent_percent (rest : string) :
  fmt.doPrintf 0 ("%%" ++ rest)%string = ("%" ++ fmt.doPrintf 0 rest)%string.
Proof.
  change (fmt.doPrintf 0 ("%%" ++ rest)%string)
    with (let '(out, rest') := fmt.directive 0 (String "%" rest) in
          (out ++ fmt.doPrintf
                    (String.length (String "%" rest) - String.length rest')
                    (String "%" rest))%string).
  rewrite directive_percent. cbv beta iota zeta.
  replace (String.length (String "%" rest) - String.length rest) with 1
    by (simpl; lia).
  reflexivity.
Qed.

(** X18. A response message is used as a format with nothing to format:
    where the text around them has no ['%'], a doubled percent sign in the
    message comes out as a single one, and a percent sign that ends the
    message comes out with ["!(NOVERB)"] after it. *)
Theorem hookHandler_percent_in_message {Rules Argument FS : Type}
    {env : Collaborators Rules Argument FS}
    (r : Request) (s : Server Rules Argument FS) (hook : Hook Rules Argument) :
  Match (hooks s) (Vars_id r) = Some hook →
  let w' := fst (hookHandler newResponseWriter r s) in
  (∀ text rest,
      ResponseMessage hook = (text ++ "%%" ++ rest)%string →
      fmt.noPercent text = true → fmt.noPercent rest = true →
      written w' = (text ++ "%" ++ rest)%string)
  ∧ (∀ text,
      ResponseMessage hook = (text ++ "%")%string →
      fmt.noPercent text = true →
      written w' = (text ++ "%!(NOVERB)")%string).
Proof.
  intros Hm w'. subst w'. rewrite (hookHandler_matched _ _ _ Hm).
  cbn [written]. unfold fmt.Sprintf. split.
  - intros text rest -> Ht Hr.
    rewrite doPrintf_text, doPrintf_percent_percent by done.
    fold (fmt.Sprintf rest). by rewrite Sprintf_noPercent.
  - intros text -> Ht. by rewrite doPrintf_text.
Qed.

(** *** Normalisation and updates of the multi-map *)

(** X19. Normalisation follows updates of the multi-map: binding a key to a
    list with a first value binds it to that value in the result,
    binding it to the empty list or removing it removes it from the
    result, and the other keys are not affected. *)
Theorem valuesToMap_update (values : Values) (key : string) :
  (∀ v vs, valuesToMap (<[key := v :: vs]> values)
           = <[key := IString v]> (valuesToMap values))
  ∧ valuesToMap (<[key := []]> values) = delete key (valuesToMap values)
  ∧ valuesToMap (delete key values) = delete key (valuesToMap values).
Proof.
  split; [|split].
  - intros v vs. apply map_eq. intros k.
    rewrite valuesToMap_lookup, !lookup_insert.
    case_decide; [done|]. by rewrite valuesToMap_lookup.
  - apply map_eq. intros k.
    rewrite valuesToMap_lookup, lookup_insert, lookup_delete.
    case_decide; [done|]. by rewrite valuesToMap_lookup.
  - apply map_eq. intros k.
    rewrite valuesToMap_lookup, !lookup_delete.
    case_decide; [done|]. by rewrite valuesToMap_lookup.
Qed.

(** X20. Only the first value of each key counts: multi-maps that agree on
    the first values give the same result, so cutting every list down to
    its first value changes nothing. *)
Theorem valuesToMap_first_values_only :
  (∀ values1 values2 : Values,
      (∀ key, values1 !! key ≫= head = values2 !! key ≫= head) →
      valuesToMap values1 = valuesToMap values2)
  ∧ ∀ values : Values, valuesToMap (take 1 <$> values) = valuesToMap values.
Proof.
  assert (Hagree : ∀ values1 values2 : Values,
             (∀ key, values1 !! key ≫= head = values2 !! key ≫= head) →
             valuesToMap values1 = valuesToMap values2).
  { intros values1 values2 H. apply map_eq. intros k.
    rewrite !valuesToMap_lookup. specialize (H k).
    destruct (values1 !! k) as [[|v1 l1]|], (values2 !! k) as [[|v2 l2]|];
      simpl in *; congruence. }
  split; [exact Hagree|].
  intros values. apply Hagree. intros key. rewrite lookup_fmap.
  by destruct (values !! key) as [[|v l]|].
Qed.

(** *** The further properties on the concrete deployment *)

(** X2 on a reload that brings the table down to [build]: the log counts
    and lists the two hooks that were there before. *)
Lemma reloadHooks_logs_previous_table_witness :
  logged (snd (reloadHooks (env := Scenario.env)
                 (Scenario.server (Some [Scenario.build]))))
    = [Printf "attempting to reload hooks from %s\n" [AString "hooks.json"];
       Printf "loaded %d hook(s) from file\n" [AInt 2];
       Printf "\t> %s\n" [AString "build"];
       Printf "\t> %s\n" [AString "progress"]].
Proof.
  exact (reloadHooks_logs_previous_table (env := Scenario.env)
           (Scenario.server (Some [Scenario.build])) [Scenario.build] eq_refl).
Defined.

(** X7 on two requests for [build] that have nothing else in common. *)
Lemma hookHandler_response_by_id_witness :
  fst (hookHandler (env := Scenario.env) newResponseWriter
         (Scenario.request "build" "msg=hi" "application/json" "{}")
         (Scenario.server None))
  = fst (hookHandler (env := Scenario.env) newResponseWriter
           (Scenario.request "build" "" "text/plain" "none")
           (Scenario.server (Some []))).
Proof.
  apply (hookHandler_response_by_id (env := Scenario.env)); reflexivity.
Defined.

(** X8 on a request for [build]. *)
Lemma hookHandler_starts_one_task_witness :
  let s := Scenario.server None in
  let r := Scenario.request "build" "msg=hi" "text/plain" "body" in
  let s' := snd (hookHandler (env := Scenario.env) newResponseWriter r s) in
  hooks s' = hooks s
  ∧ files s' = files s
  ∧ executed s' = executed s
  ∧ (∃ t, started s' = started s ++ [t]
          ∧ t_hook t = Scenario.build
          ∧ t_body t = fst (ReadAll_Body r))
  ∧ ∃ es, logged s' =
            logged s ++ Printf "%s got matched\n" [AString (Vars_id r)] :: es.
Proof.
  exact (hookHandler_starts_one_task (env := Scenario.env)
           (Scenario.request "build" "msg=hi" "text/plain" "body")
           (Scenario.server None) Scenario.build eq_refl).
Defined.

(** X9 on a request for [build] whose body broke off after three bytes. *)
Lemma hookHandler_body_read_error_witness :
  let s := Scenario.server None in
  let r := {| Vars_id := "build"; Header := ∅; RawQuery := "";
              ReadAll_Body := ("par", Some "unexpected EOF") |} in
  let '(w', s') := hookHandler (env := Scenario.env) newResponseWriter r s in
  status w' = StatusOK
  ∧ written w' = fmt.Sprintf (ResponseMessage Scenario.build)
  ∧ (fmt.noPercent (ResponseMessage Scenario.build) = true →
     written w' = ResponseMessage Scenario.build)
  ∧ Printf "error reading the request body. %+v\n" [AError "unexpected EOF"]
      ∈ logged s'
  ∧ ∃ t, started s' = started s ++ [t]
         ∧ t_hook t = Scenario.build ∧ t_body t = "par".
Proof.
  exact (hookHandler_body_read_error (env := Scenario.env)
           {| Vars_id := "build"; Header := ∅; RawQuery := "";
              ReadAll_Body := ("par", Some "unexpected EOF") |}
           (Scenario.server None) Scenario.build "par" "unexpected EOF"
           eq_refl eq_refl).
Defined.

(** X10 on a request without a content type whose body is a JSON object. *)
Lemma hookHandler_other_content_type_witness :
  let s := Scenario.server None in
  let r := {| Vars_id := "build"; Header := ∅; RawQuery := "";
              ReadAll_Body := ("{}", None) |} in
  t_payload <$> started (snd (hookHandler (env := Scenario.env)
                                newResponseWriter r s))
    = [None].
Proof.
  intros s r.
  rewrite (proj1 (hookHandler_other_content_type (env := Scenario.env)
                    r s Scenario.build eq_refl eq_refl eq_refl)).
  reflexivity.
Defined.

(** X11 on a JSON request that names its character set. *)
Lemma hookHandler_json_by_prefix_witness :
  let s := Scenario.server None in
  let r := Scenario.request "build" ""
             "application/json; charset=utf-8" "{}" in
  t_payload <$> started (snd (hookHandler (env := Scenario.env)
                                newResponseWriter r s))
    = [Some ∅].
Proof.
  intros s r.
  rewrite (hookHandler_json_by_prefix (env := Scenario.env) r s Scenario.build
             "; charset=utf-8" [] eq_refl eq_refl).
  reflexivity.
Defined.

(** X17 on a form that sends [a] twice. *)
Lemma hookHandler_form_payload_witness :
  let s := Scenario.server None in
  let r := Scenario.request "build" ""
             "application/x-www-form-urlencoded" "a=1&a=2" in
  t_payload <$> started (snd (hookHandler (env := Scenario.env)
                                newResponseWriter r s))
    = [Some {[ "a" := IString "1" ]}].
Proof.
  intros s r.
  assert (Hq : ParseQuery (Collaborators := Scenario.env) (fst (ReadAll_Body r))
               = ({[ "a" := ["1"; "2"] ]}, None))
    by (vm_compute; reflexivity).
  rewrite (hookHandler_form_payload (env := Scenario.env) r s Scenario.build
             {[ "a" := ["1"; "2"] ]} eq_refl eq_refl eq_refl Hq).
  vm_compute. reflexivity.
Defined.

(** X13 on the hook [deploy], whose command is not on the search path. *)
Lemma handleHook_command_not_found_witness :
  let s := Scenario.server None in
  Start (hookCommand (env := Scenario.env) Scenario.deploy ∅ ∅ None) = None
  ∧ Printf "stderr: %+v\n" [AError "executable file not found in $PATH"]
      ∈ logged (snd (handleHook (env := Scenario.env) Scenario.deploy ∅ ∅ None
                       "" s)).
Proof.
  intros s.
  destruct (handleHook_command_not_found (env := Scenario.env)
              Scenario.deploy ∅ ∅ None "" s ""
              "executable file not found in $PATH" eq_refl eq_refl eq_refl)
    as [Hstart Hlog].
  split; [exact Hstart|].
  rewrite Hlog. apply elem_of_app. right.
  rewrite !elem_of_cons. tauto.
Defined.

(** X14 on the hook [build] run without a query. *)
Lemma handleHook_logs_outcome_witness :
  let s := Scenario.server None in
  ∃ es,
    logged (snd (handleHook (env := Scenario.env) Scenario.build ∅ ∅ None "" s))
    = es ++ [Printf "stdout: %s\n" [AString ""];
             Printf "finished handling %s\n" [AString "build"]].
Proof.
  intros s.
  assert (Hstart : Start (hookCommand (env := Scenario.env) Scenario.build
                            ∅ ∅ None)
                   = Some {| image := "/bin/echo"; arguments := ["echo"; ""];
                             directory := "/tmp" |})
    by (vm_compute; reflexivity).
  destruct (handleHook_logs_outcome (env := Scenario.env)
              Scenario.build ∅ ∅ None "" s _ eq_refl Hstart)
    as [es Hlog].
  exists es. rewrite Hlog. reflexivity.
Defined.

(** X15 on the end-to-end request: the goroutine carries the query
    [msg=hi], and running it executes one command. *)
Lemma hookHandler_then_handleHook_witness :
  let s := Scenario.server None in
  let r := Scenario.request "build" "msg=hi" "text/plain" "" in
  let s1 := snd (hookHandler (env := Scenario.env) newResponseWriter r s) in
  ∃ t,
    started s1 = [t]
    ∧ t_query t = {[ "msg" := IString "hi" ]}
    ∧ t_payload t = None
    ∧ length (executed (snd (runTask (env := Scenario.env) t s1))) = 1.
Proof.
  intros s r s1. subst s1.
  pose proof (hookHandler_then_handleHook (env := Scenario.env) r s
                Scenario.build eq_refl) as H.
  cbv zeta in H. destruct H as (Hst & _ & Hex).
  eexists. split; [exact Hst|].
  split; [vm_compute; reflexivity|]. split; [reflexivity|].
  rewrite Hex. reflexivity.
Defined.

(** X16 on a reload that drops [build] from the table. *)
Lemma reloadHooks_then_hookHandler_witness :
  let s := Scenario.server (Some [Scenario.progress]) in
  let r := Scenario.request "build" "" "text/plain" "" in
  let w' := fst (hookHandler (env := Scenario.env) newResponseWriter r
                   (snd (reloadHooks (env := Scenario.env) s))) in
  status w' = StatusNotFound ∧ written w' = "Hook not found.".
Proof.
  intros s r.
  exact (proj2 (reloadHooks_then_hookHandler (env := Scenario.env) r s
                  [Scenario.progress] eq_refl) eq_refl).
Defined.

(** X21 on [build], whose message has no percent sign. *)
Lemma hookHandler_matched_verbatim_witness :
  let s := Scenario.server None in
  let r := Scenario.request "build" "" "text/plain" "" in
  let w' := fst (hookHandler (env := Scenario.env) newResponseWriter r s) in
  status w' = StatusOK ∧ written w' = "build started".
Proof.
  exact (hookHandler_matched_verbatim (env := Scenario.env)
           (Scenario.request "build" "" "text/plain" "")
           (Scenario.server None) Scenario.build eq_refl eq_refl).
Defined.

(** X18 on [progress], whose message ends in a percent sign. *)
Lemma hookHandler_percent_in_message_witness :
  let s := Scenario.server None in
  let r := Scenario.request "progress" "" "text/plain" "" in
  written (fst (hookHandler (env := Scenario.env) newResponseWriter r s))
    = "100%!(NOVERB)".
Proof.
  intros s r.
  exact (proj2 (hookHandler_percent_in_message (env := Scenario.env) r s
                  Scenario.progress eq_refl) "100" eq_refl eq_refl).
Defined.
